(** * ioSync MCU device: request tracking, event translation and the poll tick

    A shallow embedding of [psychopy/iohub/devices/mcu/iosync/__init__.py]
    (class [MCU]).  The device object is a record, every method is a
    computation in a state-and-exception monad over that record, and the
    serial link ([pysync.T3MC]) is an interface whose operations may raise.

    Python semantics that the embedding writes out:
    - a method call on [None] raises [AttributeError];
    - a list item assignment out of range raises [IndexError];
    - [dict.values()] is a live view of the dictionary (Python 3);
    - [if x:] tests truthiness: [None], [0] and [''] are falsy;
    - state mutated before an exception is raised stays mutated. *)

From stdpp Require Import gmap list strings.

Open Scope Z_scope.

(** ** Exceptions and results *)

(** Instances of Python's [Exception] class, as raised by the interpreter
    ([AttributeError], [IndexError]) or by the serial link. *)
Inductive exn : Type :=
| AttributeError
| IndexError
| LinkError (code : Z).

Inductive result (A : Type) : Type :=
| Ok (a : A)
| Raise (e : exn).
Arguments Ok {A} a.
Arguments Raise {A} e.

Definition bindR {A B : Type} (r : result A) (k : A → result B) : result B :=
  match r with
  | Ok a => k a
  | Raise e => Raise e
  end.

(** ** Host clock values

    Times are Python floats.  The code only subtracts and compares them, so
    the embedding is parametric in the number type and these operations. *)
Class HostClock (F : Type) : Type := {
  fzero : F;             (* the literal 0.0 *)
  fsub : F → F → F;      (* a - b *)
  fge : F → F → bool;    (* a >= b *)
}.

(** ** Values stored in an event list *)
Inductive pyval (F : Type) : Type :=
| PyInt (z : Z)
| PyFloat (x : F)
| PyBool (b : bool).
Arguments PyInt {F} z.
Arguments PyFloat {F} x.
Arguments PyBool {F} b.

(** Modelled from the spec: [constants.EventConstants] is not part of the
    source given; the four constants the module reads are taken as
    parameters ("undefined" sentinel and the three type tags). *)
Class EventConstants (F : Type) : Type := {
  UNDEFINED : pyval F;
  ANALOG_INPUT : pyval F;
  DIGITAL_INPUT : pyval F;
  THRESHOLD : pyval F;
}.

(** ** Objects handed over by the serial link *)

(** Modelled from the spec: [pysync.T3Event], a device event carrying its
    device time, an optional host-time stamp and the data of its variant.
    [getTypeInt()] is the constructor of [T3EventData]; a tag the module
    does not know is [UnknownEvent]. *)
Inductive T3EventData (F : Type) : Type :=
| AnalogInputEvent (ain_channels : list F)
| DigitalInputEvent (digital_input_byte : Z)
| ThresholdEvent (threshold_state_changed : list bool)
| UnknownEvent (type_int : Z).
Arguments AnalogInputEvent {F} ain_channels.
Arguments DigitalInputEvent {F} digital_input_byte.
Arguments ThresholdEvent {F} threshold_state_changed.
Arguments UnknownEvent {F} type_int.

Record T3Event (F : Type) : Type := mkT3Event {
  device_time : F;
  local_time : option F;
  event_data : T3EventData F;
}.
Arguments mkT3Event {F} _ _ _.
Arguments device_time {F} _.
Arguments local_time {F} _.
Arguments event_data {F} _.

(** Modelled from the spec: [pysync.T3Request], a command sent to the device
    and, once answered, its reply; the link assigns the id. *)
Record T3Request : Type := mkT3Request {
  getID : Z;
  request_data : list Z;
}.

(** [request.asdict()]: the request as a dictionary of its attributes. *)
Record RequestDict : Type := mkRequestDict {
  rd_id : Z;
  rd_data : list Z;
}.

Definition asdict (r : T3Request) : RequestDict :=
  {| rd_id := getID r; rd_data := request_data r |}.

Global Instance T3Request_eq_dec : EqDecision T3Request.
Proof. solve_decision. Defined.

Global Instance RequestDict_eq_dec : EqDecision RequestDict.
Proof. solve_decision. Defined.

(** Modelled from the spec: [pysync.T3MC], the serial link.  Each operation
    takes the link to its next state and either returns or raises. *)
Class T3MC (F L : Type) : Type := {
  T3MC_new : string → result L;                              (* T3MC(port) *)
  mcu_getSerialRx : L → result unit * L;
  mcu_runTimeSync : L → result unit * L;
  mcu_getRxEvents : L → result (list (T3Event F)) * L;
  mcu_getRequestReplies : bool → L → result (list T3Request) * L;
  mcu_requestTime : L → result T3Request * L;
  mcu_resetState : L → result T3Request * L;
  mcu_enableInputEvents : bool → bool → bool → L → result unit * L;
  mcu_close : L → result unit * L;
}.

(** ** The device object *)

(** What a method of the module returns to its caller. *)
Inductive pyret : Type :=
| RetNone
| RetBool (b : bool)
| RetDict (d : RequestDict)
| RetList (ds : list RequestDict).

Section Device.
Context {F L : Type} `{HostClock F} `{EventConstants F} `{T3MC F L}.

(** The slots of [MCU] followed by the state of the [Device] base class
    and of the process that the module touches. *)
Record MCU : Type := mkMCU {
  serial_port : option string;
  time_sync_interval : F;
  _mcu : option L;
  _request_dict : gmap Z T3Request;
  _response_dict : gmap Z T3Request;
  _last_sync_time : F;
  (* Device *)
  monitor_event_types : list string;
  _is_reporting_events : bool;
  _last_callback_time : F;
  _nativeEventBuffer : list (list (pyval F));
  _iohub_event_id_counter : Z;
  (* standard error stream *)
  stderr : list exn;
}.

Definition set_serial_port (v : option string) (s : MCU) : MCU :=
  mkMCU v (time_sync_interval s) (_mcu s) (_request_dict s) (_response_dict s)
        (_last_sync_time s) (monitor_event_types s) (_is_reporting_events s)
        (_last_callback_time s) (_nativeEventBuffer s)
        (_iohub_event_id_counter s) (stderr s).

Definition set_mcu (v : option L) (s : MCU) : MCU :=
  mkMCU (serial_port s) (time_sync_interval s) v (_request_dict s)
        (_response_dict s) (_last_sync_time s) (monitor_event_types s)
        (_is_reporting_events s) (_last_callback_time s)
        (_nativeEventBuffer s) (_iohub_event_id_counter s) (stderr s).

Definition set_request_dict (v : gmap Z T3Request) (s : MCU) : MCU :=
  mkMCU (serial_port s) (time_sync_interval s) (_mcu s) v (_response_dict s)
        (_last_sync_time s) (monitor_event_types s) (_is_reporting_events s)
        (_last_callback_time s) (_nativeEventBuffer s)
        (_iohub_event_id_counter s) (stderr s).

Definition set_response_dict (v : gmap Z T3Request) (s : MCU) : MCU :=
  mkMCU (serial_port s) (time_sync_interval s) (_mcu s) (_request_dict s) v
        (_last_sync_time s) (monitor_event_types s) (_is_reporting_events s)
        (_last_callback_time s) (_nativeEventBuffer s)
        (_iohub_event_id_counter s) (stderr s).

Definition set_last_sync_time (v : F) (s : MCU) : MCU :=
  mkMCU (serial_port s) (time_sync_interval s) (_mcu s) (_request_dict s)
        (_response_dict s) v (monitor_event_types s) (_is_reporting_events s)
        (_last_callback_time s) (_nativeEventBuffer s)
        (_iohub_event_id_counter s) (stderr s).

Definition set_is_reporting_events (v : bool) (s : MCU) : MCU :=
  mkMCU (serial_port s) (time_sync_interval s) (_mcu s) (_request_dict s)
        (_response_dict s) (_last_sync_time s) (monitor_event_types s) v
        (_last_callback_time s) (_nativeEventBuffer s)
        (_iohub_event_id_counter s) (stderr s).

Definition set_last_callback_time (v : F) (s : MCU) : MCU :=
  mkMCU (serial_port s) (time_sync_interval s) (_mcu s) (_request_dict s)
        (_response_dict s) (_last_sync_time s) (monitor_event_types s)
        (_is_reporting_events s) v (_nativeEventBuffer s)
        (_iohub_event_id_counter s) (stderr s).

Definition set_nativeEventBuffer (v : list (list (pyval F))) (s : MCU) : MCU :=
  mkMCU (serial_port s) (time_sync_interval s) (_mcu s) (_request_dict s)
        (_response_dict s) (_last_sync_time s) (monitor_event_types s)
        (_is_reporting_events s) (_last_callback_time s) v
        (_iohub_event_id_counter s) (stderr s).

Definition set_iohub_event_id_counter (v : Z) (s : MCU) : MCU :=
  mkMCU (serial_port s) (time_sync_interval s) (_mcu s) (_request_dict s)
        (_response_dict s) (_last_sync_time s) (monitor_event_types s)
        (_is_reporting_events s) (_last_callback_time s)
        (_nativeEventBuffer s) v (stderr s).

Definition set_stderr (v : list exn) (s : MCU) : MCU :=
  mkMCU (serial_port s) (time_sync_interval s) (_mcu s) (_request_dict s)
        (_response_dict s) (_last_sync_time s) (monitor_event_types s)
        (_is_reporting_events s) (_last_callback_time s)
        (_nativeEventBuffer s) (_iohub_event_id_counter s) v.

(** ** The monad of methods: state that survives a raised exception *)

Definition M (A : Type) : Type := MCU → result A * MCU.

Definition ret {A : Type} (a : A) : M A := λ s, (Ok a, s).

Definition raise {A : Type} (e : exn) : M A := λ s, (Raise e, s).

Definition bind {A B : Type} (m : M A) (k : A → M B) : M B :=
  λ s, match m s with
       | (Ok a, s') => k a s'
       | (Raise e, s') => (Raise e, s')
       end.

Definition get : M MCU := λ s, (Ok s, s).

Definition modify (f : MCU → MCU) : M unit := λ s, (Ok tt, f s).

Definition liftR {A : Type} (r : result A) : M A := λ s, (r, s).

(** [try: body except Exception as e: handler(e)] *)
Definition try_except {A : Type} (body : M A) (handler : exn → M A) : M A :=
  λ s, match body s with
       | (Ok a, s') => (Ok a, s')
       | (Raise e, s') => handler e s'
       end.

(** [for x in xs: body(x)] *)
Fixpoint for_each {A : Type} (xs : list A) (body : A → M unit) : M unit :=
  match xs with
  | [] => ret tt
  | x :: xs' => bind (body x) (λ _, for_each xs' body)
  end.

(** [self._mcu.op(...)]: an [AttributeError] when [self._mcu] is [None]. *)
Definition with_mcu {A : Type} (op : L → result A * L) : M A :=
  λ s, match _mcu s with
       | None => (Raise AttributeError, s)
       | Some l => let '(r, l') := op l in (r, set_mcu (Some l') s)
       end.

End Device.

Arguments MCU F L : clear implicits.
Arguments M F L A : clear implicits.

Declare Scope py_scope.
Delimit Scope py_scope with py.
Notation "'let!' x := m 'in' k" := (bind m (λ x, k))
  (at level 10, x name, m at level 100, k at level 200) : py_scope.
Open Scope py_scope.

Section Methods.
Context {F L : Type} `{HostClock F} `{EventConstants F} `{T3MC F L}.

Local Abbreviation M := (M F L).
Local Abbreviation elist := (list (pyval F)).

(** ** The [Device] base class and the error stream *)

(** Modelled from the spec: [Device.isReportingEvents], the reporting flag
    kept by the base class. *)
Definition Device_isReportingEvents : M bool :=
  let! s := get in ret (_is_reporting_events s).

(** Modelled from the spec: [Device.enableEventReporting] stores the flag
    and returns it. *)
Definition Device_enableEventReporting (enabled : bool) : M bool :=
  let! _ := modify (set_is_reporting_events enabled) in
  ret enabled.

(** Modelled from the spec: [Device._getNextEventID], the host's event-id
    allocation, a counter. *)
Definition _getNextEventID : M Z :=
  let! s := get in
  let! _ := modify (set_iohub_event_id_counter (_iohub_event_id_counter s + 1)) in
  ret (_iohub_event_id_counter s).

(** Modelled from the spec: [Device._addNativeEventToBuffer] appends the
    record to the append-only output buffer owned by the host. *)
Definition _addNativeEventToBuffer (e : elist) : M unit :=
  modify (λ s, set_nativeEventBuffer (_nativeEventBuffer s ++ [e]) s).

(** Modelled from the spec: [Device._close], which touches nothing of the
    state kept here. *)
Definition Device_close : M unit := ret tt.

(** [print2err] and [printExceptionDetailsToStdErr]: the exception is
    written to the error stream. *)
Definition print2err (e : exn) : M unit :=
  modify (λ s, set_stderr (stderr s ++ [e]) s).

(** ** Connection state *)

Definition isConnected : M bool :=
  let! s := get in
  ret (match _mcu s with Some _ => true | None => false end).

Definition isReportingEvents : M bool := Device_isReportingEvents.

(** Truthiness of [self.serial_port]: [None] and [''] are falsy. *)
Definition port_truthy (p : option string) : option string :=
  match p with
  | Some EmptyString => None
  | Some port => Some port
  | None => None
  end.

(** [now] is the value [getTime()] returns when the method reads the
    clock. *)
Definition _resetLocalState (now : F) : M unit :=
  let! _ := modify (set_request_dict ∅) in
  let! _ := modify (set_response_dict ∅) in
  let! _ := modify (set_last_sync_time fzero) in
  let! _ := with_mcu mcu_runTimeSync in
  modify (set_last_sync_time now).

Definition setConnectionState (enable : bool) (now : F) : M bool :=
  let! s := get in
  let! _ :=
    (if enable then
       match _mcu s, port_truthy (serial_port s) with
       | None, Some port =>
           let! l := liftR (T3MC_new port) in
           let! _ := modify (set_mcu (Some l)) in
           _resetLocalState now
       | _, _ => ret tt
       end
     else
       match _mcu s with
       | Some _ =>
           let! _ := with_mcu mcu_resetState in
           let! _ := with_mcu mcu_close in
           modify (set_mcu None)
       | None => ret tt
       end) in
  isConnected.

(** ** Request wrappers *)

Definition requestTime : M RequestDict :=
  let! request := with_mcu mcu_requestTime in
  let! _ := modify (λ s, set_request_dict
                           (<[getID request := request]> (_request_dict s)) s) in
  ret (asdict request).

Definition resetState (now : F) : M RequestDict :=
  let! request := with_mcu mcu_resetState in
  let! _ := _resetLocalState now in
  let! _ := modify (λ s, set_request_dict
                           (<[getID request := request]> (_request_dict s)) s) in
  ret (asdict request).

(** Truthiness of the argument [rid]: [None] and [0] are falsy. *)
Definition rid_truthy (rid : option Z) : option Z :=
  match rid with
  | Some 0 => None
  | Some k => Some k
  | None => None
  end.

(** [self._response_dict.values()]: a view that reads the dictionary
    whenever it is iterated, not a copy taken at the call. *)
Definition response_values_view (s : MCU F L) : list T3Request :=
  (map_to_list (_response_dict s)).*2.

(** A reply is a class instance and hence truthy, so [if response:] is
    the test that [get] found the key. *)
Definition getRequestResponse (rid : option Z) : M pyret :=
  match rid_truthy rid with
  | Some rid =>
      let! s := get in
      match _response_dict s !! rid with
      | Some response =>
          let! _ := modify (λ s, set_response_dict
                                   (delete rid (_response_dict s)) s) in
          ret (RetDict (asdict response))
      | None => ret RetNone
      end
  | None =>
      let responses := response_values_view in
      let! _ := modify (set_response_dict ∅) in
      let! s := get in
      ret (RetList (asdict <$> responses s))
  end.

Definition _enableInputEvents (enable_digital enable_analog threshold_events : bool)
  : M unit :=
  with_mcu (mcu_enableInputEvents enable_digital enable_analog threshold_events).

Definition enableEventReporting (enabled : bool) (now : F) : M bool :=
  let! reporting := isReportingEvents in
  let! _ :=
    (if enabled && negb reporting then
       let! connected := isConnected in
       let! _ := (if negb connected
                  then let! _ := setConnectionState true now in ret tt
                  else ret tt) in
       let! s := get in
       let event_types := monitor_event_types s in
       let enable_analog := bool_decide ("AnalogInputEvent"%string ∈ event_types) in
       let enable_digital := bool_decide ("DigitalInputEvent"%string ∈ event_types) in
       let enable_threshold := bool_decide ("ThresholdEvent"%string ∈ event_types) in
       _enableInputEvents enable_digital enable_analog enable_threshold
     else if negb enabled && reporting then
       let! connected := isConnected in
       if connected then _enableInputEvents false false false else ret tt
     else ret tt) in
  Device_enableEventReporting enabled.

(** ** Event translation (the body of the [for event in events] loop) *)

(** [elist[i] = v] *)
Definition setitem (l : elist) (i : nat) (v : pyval F) : result elist :=
  if decide (i < length l)%nat then Ok (<[i:=v]> l) else Raise IndexError.

Definition enumerate {A : Type} (l : list A) : list (nat * A) :=
  imap (λ i v, (i, v)) l.

(** [for i, v in enumerate(values): elist[(i + 11)] = v] *)
Fixpoint fill_channels (l : elist) (ivs : list (nat * pyval F)) : result elist :=
  match ivs with
  | [] => Ok l
  | (i, v) :: ivs' => bindR (setitem l (i + 11) v) (λ l', fill_channels l' ivs')
  end.

(** The branch on the event type: the list the branch builds, [None] for
    a type the module does not know. *)
Definition new_elist (event : T3Event F) : result (option elist) :=
  match event_data event with
  | AnalogInputEvent ain_channels =>
      let l := replicate 19 UNDEFINED in
      bindR (setitem l 4 ANALOG_INPUT) (λ l,
      bindR (fill_channels l (enumerate (PyFloat <$> ain_channels))) (λ l,
      Ok (Some l)))
  | DigitalInputEvent digital_input_byte =>
      let l := replicate 12 UNDEFINED in
      bindR (setitem l 4 DIGITAL_INPUT) (λ l,
      bindR (setitem l (length l - 1) (PyInt digital_input_byte)) (λ l,
      Ok (Some l)))
  | ThresholdEvent threshold_state_changed =>
      let l := replicate 19 UNDEFINED in
      bindR (setitem l 4 THRESHOLD) (λ l,
      bindR (fill_channels l (enumerate (PyBool <$> threshold_state_changed))) (λ l,
      Ok (Some l)))
  | UnknownEvent _ => Ok None
  end.

(** Truthiness of [elist]: [None] and the empty list are falsy. *)
Definition elist_truthy (l : option elist) : option elist :=
  match l with
  | Some [] => None
  | Some l => Some l
  | None => None
  end.

Definition translate_event (logged_time confidence_interval : F)
    (event : T3Event F) : M unit :=
  let device_time := device_time event in
  let local_time := default logged_time (local_time event) in
  let delay := fsub logged_time local_time in
  let iohub_time := local_time in
  let! l := liftR (new_elist event) in
  match elist_truthy l with
  | Some l =>
      let! l := liftR (setitem l 0 (PyInt 0)) in
      let! l := liftR (setitem l 1 (PyInt 0)) in
      let! l := liftR (setitem l 2 (PyInt 0)) in
      let! event_id := _getNextEventID in
      let! l := liftR (setitem l 3 (PyInt event_id)) in
      let! l := liftR (setitem l 5 (PyFloat device_time)) in
      let! l := liftR (setitem l 6 (PyFloat logged_time)) in
      let! l := liftR (setitem l 7 (PyFloat iohub_time)) in
      let! l := liftR (setitem l 8 (PyFloat confidence_interval)) in
      let! l := liftR (setitem l 9 (PyFloat delay)) in
      let! l := liftR (setitem l 10 (PyInt 0)) in
      _addNativeEventToBuffer l
  | None => ret tt
  end.

(** ** The poll tick *)

(** Lines 269-273: link drain and scheduled resync. *)
Definition poll_link_io (logged_time : F) : M unit :=
  let! connected := isConnected in
  if connected then
    let! _ := with_mcu mcu_getSerialRx in
    let! s := get in
    if fge (fsub logged_time (_last_sync_time s)) (time_sync_interval s) then
      let! _ := with_mcu mcu_runTimeSync in
      modify (set_last_sync_time logged_time)
    else ret tt
  else ret tt.

(** Lines 278-318: event translation. *)
Definition poll_events (logged_time : F) : M unit :=
  let! s := get in
  let confidence_interval := fsub logged_time (_last_callback_time s) in
  let! events := with_mcu mcu_getRxEvents in
  for_each events (translate_event logged_time confidence_interval).

(** Lines 322-325: the body of the [for reply in replies] loop. *)
Definition reconcile_reply (reply : T3Request) : M unit :=
  let rid := getID reply in
  let! s := get in
  if bool_decide (rid ∈ dom (_request_dict s)) then
    let! _ := modify (λ s, set_response_dict
                             (<[rid := reply]> (_response_dict s)) s) in
    modify (λ s, set_request_dict (delete rid (_request_dict s)) s)
  else ret tt.

Definition reconcile (replies : list T3Request) : M unit :=
  for_each replies reconcile_reply.

(** Lines 320-325: reply reconciliation. *)
Definition poll_replies : M unit :=
  let! replies := with_mcu (mcu_getRequestReplies true) in
  reconcile replies.

(** The body of the [try] block; [logged_time] is the value of
    [getTime()] at line 267. *)
Definition poll_body (logged_time : F) : M pyret :=
  let! _ := poll_link_io logged_time in
  let! reporting := isReportingEvents in
  if negb reporting then ret (RetBool false)
  else
    let! _ := poll_events logged_time in
    let! _ := poll_replies in
    let! _ := modify (set_last_callback_time logged_time) in
    ret (RetBool true).

(** The handler prints and falls off the end of the function, which
    returns [None]. *)
Definition _poll (logged_time : F) : M pyret :=
  try_except (poll_body logged_time)
             (λ e, let! _ := print2err e in ret RetNone).

Definition _close (now : F) : M unit :=
  let! s := get in
  let! _ := (match _mcu s with
             | Some _ =>
                 let! _ := resetState now in
                 let! _ := setConnectionState false now in
                 ret tt
             | None => ret tt
             end) in
  Device_close.

(** ** Vocabulary of the statements about event translation *)

(** An event of one of the three types the loop translates. *)
Definition recognized (event : T3Event F) : bool :=
  match event_data event with
  | UnknownEvent _ => false
  | _ => true
  end.

(** The list of the type branch after lines 307-316 have written the
    eleven leading fields into it. *)
Definition host_event (l : elist) (event_id : Z)
    (logged_time confidence_interval : F) (event : T3Event F) : elist :=
  let local_time := default logged_time (local_time event) in
  <[10%nat := PyInt 0]>
    (<[9%nat := PyFloat (fsub logged_time local_time)]>
       (<[8%nat := PyFloat confidence_interval]>
          (<[7%nat := PyFloat local_time]>
             (<[6%nat := PyFloat logged_time]>
                (<[5%nat := PyFloat (device_time event)]>
                   (<[3%nat := PyInt event_id]>
                      (<[2%nat := PyInt 0]>
                         (<[1%nat := PyInt 0]>
                            (<[0%nat := PyInt 0]> l))))))))).

(** [e] is the record the loop body appends for [event]. *)
Definition emitted_for (logged_time confidence_interval : F)
    (event : T3Event F) (e : elist) : Prop :=
  ∃ l event_id, new_elist event = Ok (Some l) ∧
                e = host_event l event_id logged_time confidence_interval event.

(** The timing slots of the record [e] are those of [event] in a tick
    with start time [logged_time], where [last_callback_time] is the value
    of [_last_callback_time] at the start of the tick: slot 6 the logged
    time, slot 7 the host time, slot 9 the delay, slot 8 the confidence
    interval. *)
Definition timed_for (logged_time last_callback_time : F)
    (event : T3Event F) (e : elist) : Prop :=
  e !! 6%nat = Some (PyFloat logged_time) ∧
  e !! 7%nat = Some (PyFloat (default logged_time (local_time event))) ∧
  e !! 9%nat
    = Some (PyFloat (fsub logged_time
                          (default logged_time (local_time event)))) ∧
  e !! 8%nat = Some (PyFloat (fsub logged_time last_callback_time)).

End Methods.

(** ** The remaining request wrappers and the constructor *)

(** Modelled from the spec: the commands of [pysync.T3MC] behind the
    remaining request wrappers, and the port discovery [T3MC.findSyncs],
    which returns the candidate ports. *)
Class T3MCCommands (L : Type) : Type := {
  T3MC_findSyncs : result (list string);
  mcu_getDigitalInputs : L → result T3Request * L;
  mcu_getAnalogInputs : L → result T3Request * L;
  mcu_setDigitalOutputByte : Z → L → result T3Request * L;
  mcu_setDigitalOutputPin : Z → Z → L → result T3Request * L;
  mcu_setAnalogThresholdValues : list Z → L → result T3Request * L;
}.

(** [str.lower()] on the characters of a port name. *)
Definition lower_ascii (c : Ascii.ascii) : Ascii.ascii :=
  let n := Ascii.nat_of_ascii c in
  if ((65 <=? n) && (n <=? 90))%nat then Ascii.ascii_of_nat (n + 32) else c.

Fixpoint lower (s : string) : string :=
  match s with
  | EmptyString => EmptyString
  | String c s' => String (lower_ascii c) (lower s')
  end.

Section Commands.
Context {F L : Type} `{HostClock F} `{EventConstants F} `{T3MC F L}
        `{T3MCCommands L}.

Local Abbreviation M := (M F L).

(** The body every request wrapper has: ask the link for the request,
    store it under its id, return it as a dictionary. *)
Definition submit (op : L → result T3Request * L) : M RequestDict :=
  let! request := with_mcu op in
  let! _ := modify (λ s, set_request_dict
                           (<[getID request := request]> (_request_dict s)) s) in
  ret (asdict request).

Definition getDigitalInputs : M RequestDict := submit mcu_getDigitalInputs.

Definition getAnalogInputs : M RequestDict := submit mcu_getAnalogInputs.

Definition setDigitalOutputByte (new_dout_byte : Z) : M RequestDict :=
  submit (mcu_setDigitalOutputByte new_dout_byte).

Definition setDigitalOutputPin (dout_pin_index new_pin_state : Z)
  : M RequestDict :=
  submit (mcu_setDigitalOutputPin dout_pin_index new_pin_state).

Definition setAnalogThresholdValues (threshold_value_array : list Z)
  : M RequestDict :=
  submit (mcu_setAnalogThresholdValues threshold_value_array).

(** [self._mcu is not None], read off a state. *)
Definition connected (s : MCU F L) : bool :=
  match _mcu s with Some _ => true | None => false end.

(** The fields a poll tick is not meant to touch: the configuration, the
    reporting flag and whether the device is connected. *)
Definition same_setup (s s' : MCU F L) : Prop :=
  serial_port s' = serial_port s ∧
  time_sync_interval s' = time_sync_interval s ∧
  monitor_event_types s' = monitor_event_types s ∧
  _is_reporting_events s' = _is_reporting_events s ∧
  connected s' = connected s.

Definition getSerialPort : M (option string) :=
  let! s := get in ret (serial_port s).

(** Lines 105-118 of the constructor.  The state it starts from is the
    object as [Device.__init__] left it, with [serial_port] and
    [time_sync_interval] read from the configuration; [now] is the clock
    reading of the first time sync. *)
Definition __init__ (now : F) : M unit :=
  let! _ := modify (set_mcu None) in
  let! _ := modify (set_request_dict ∅) in
  let! _ := modify (set_response_dict ∅) in
  let! _ := modify (set_last_sync_time fzero) in
  let! s := get in
  let! port := (match serial_port s with
                | Some port => ret port
                | None => raise AttributeError
                end) in
  let! _ :=
    (if bool_decide (lower port = "auto"%string) then
       let! syncPorts := liftR T3MC_findSyncs in
       match syncPorts with
       | [] => modify (set_serial_port None)
       | port0 :: _ => modify (set_serial_port (Some port0))
       end
     else ret tt) in
  let! s := get in
  let! _ := setConnectionState
              (match serial_port s with Some _ => true | None => false end)
              now in
  ret tt.

End Commands.

(** ** A concrete session, for running the methods

    Clock values are integers (ticks of the host clock), the constants
    are sample values, and the link is a test double that hands out
    queued events and replies and numbers its requests consecutively. *)

Global Instance Z_HostClock : HostClock Z :=
  {| fzero := 0; fsub := Z.sub; fge := Z.geb |}.

Global Instance sample_EventConstants : EventConstants Z :=
  {| UNDEFINED := PyInt 0;
     ANALOG_INPUT := PyInt 122;
     DIGITAL_INPUT := PyInt 121;
     THRESHOLD := PyInt 123 |}.

Record QueueLink : Type := mkQueueLink {
  queued_events : list (T3Event Z);
  queued_replies : list T3Request;
  next_request_id : Z;
  rx_fault : option exn;        (* raised by getRxEvents when set *)
  sync_count : nat;             (* time syncs run so far *)
}.

Definition QueueLink_newRequest (l : QueueLink) : result T3Request * QueueLink :=
  (Ok (mkT3Request (next_request_id l) []),
   mkQueueLink (queued_events l) (queued_replies l) (next_request_id l + 1)
               (rx_fault l) (sync_count l)).

Global Instance QueueLink_T3MC : T3MC Z QueueLink :=
  {| T3MC_new := λ _, Ok (mkQueueLink [] [] 1 None 0);
     mcu_getSerialRx := λ l, (Ok tt, l);
     mcu_runTimeSync := λ l,
       (Ok tt, mkQueueLink (queued_events l) (queued_replies l)
                           (next_request_id l) (rx_fault l) (S (sync_count l)));
     mcu_getRxEvents := λ l,
       match rx_fault l with
       | Some e => (Raise e, l)
       | None => (Ok (queued_events l),
                  mkQueueLink [] (queued_replies l) (next_request_id l)
                              None (sync_count l))
       end;
     mcu_getRequestReplies := λ _ l,
       (Ok (queued_replies l),
        mkQueueLink (queued_events l) [] (next_request_id l)
                    (rx_fault l) (sync_count l));
     mcu_requestTime := QueueLink_newRequest;
     mcu_resetState := QueueLink_newRequest;
     mcu_enableInputEvents := λ _ _ _ l, (Ok tt, l);
     mcu_close := λ l, (Ok tt, l) |}.

(** A session over [QueueLink]: sync every 5 ticks, nothing stored. *)
Definition sample_session (mcu : option QueueLink) (reporting : bool)
  : MCU Z QueueLink :=
  {| serial_port := Some "COM3"%string;
     time_sync_interval := 5;
     _mcu := mcu;
     _request_dict := ∅;
     _response_dict := ∅;
     _last_sync_time := 0;
     monitor_event_types := ["DigitalInputEvent"%string];
     _is_reporting_events := reporting;
     _last_callback_time := 0;
     _nativeEventBuffer := [];
     _iohub_event_id_counter := 1;
     stderr := [] |}.

(** The queue link finds two ports and numbers every command like a time
    request. *)
Global Instance QueueLink_T3MCCommands : T3MCCommands QueueLink :=
  {| T3MC_findSyncs := Ok ["COM7"%string; "COM9"%string];
     mcu_getDigitalInputs := QueueLink_newRequest;
     mcu_getAnalogInputs := QueueLink_newRequest;
     mcu_setDigitalOutputByte := λ _, QueueLink_newRequest;
     mcu_setDigitalOutputPin := λ _ _, QueueLink_newRequest;
     mcu_setAnalogThresholdValues := λ _, QueueLink_newRequest |}.

Definition digital_event (t : Z) (stamp : option Z) (b : Z) : T3Event Z :=
  mkT3Event t stamp (DigitalInputEvent b).

Definition analog_event (t : Z) (stamp : option Z) (chs : list Z) : T3Event Z :=
  mkT3Event t stamp (AnalogInputEvent chs).

Definition sample_link (evs : list (T3Event Z)) (replies : list T3Request)
    (next : Z) : QueueLink :=
  mkQueueLink evs replies next None 0.


(** A connected session with one pending request (id 5) and one resolved
    response (id 3); the link will number its next request 9. *)
Definition busy_session : MCU Z QueueLink :=
  set_request_dict {[5 := mkT3Request 5 []]}
    (set_response_dict {[3 := mkT3Request 3 [1]]}
       (sample_session (Some (sample_link [] [] 9)) true)).

(** A connected session that is not reporting; the link holds one digital
    input event and numbers its next request [next]. *)
Definition idle_session (next : Z) : MCU Z QueueLink :=
  sample_session (Some (sample_link [digital_event 7 None 177] [] next)) false.

(** A digital event, an event of an unknown type and an analog event. *)
Definition sample_events : list (T3Event Z) :=
  [digital_event 7 None 177;
   mkT3Event 8 None (UnknownEvent 99);
   analog_event 9 (Some 19) [1; 2; 3]].

(** A connected, reporting session whose link holds [sample_events]. *)
Definition reporting_session : MCU Z QueueLink :=
  sample_session (Some (sample_link sample_events [] 4)) true.

(** [reporting_session] after the link phase of a tick at time 20. *)
Definition reporting_session_synced : MCU Z QueueLink :=
  set_last_sync_time 20
    (set_mcu (Some (mkQueueLink sample_events [] 4 None 1)) reporting_session).

(** A link that answers a fixed number of calls and raises from then on;
    only the port "COM3" can be opened, and the link it gives raises at
    once. *)
Record BudgetLink : Type := mkBudgetLink { calls_left : nat }.

Definition BudgetLink_call {A : Type} (a : A) (l : BudgetLink)
  : result A * BudgetLink :=
  match calls_left l with
  | O => (Raise (LinkError 1), l)
  | S n => (Ok a, mkBudgetLink n)
  end.

Global Instance BudgetLink_T3MC : T3MC Z BudgetLink :=
  {| T3MC_new := λ port,
       if bool_decide (port = "COM3"%string) then Ok (mkBudgetLink 0)
       else Raise (LinkError 2);
     mcu_getSerialRx := BudgetLink_call tt;
     mcu_runTimeSync := BudgetLink_call tt;
     mcu_getRxEvents := BudgetLink_call [];
     mcu_getRequestReplies := λ _, BudgetLink_call [];
     mcu_requestTime := BudgetLink_call (mkT3Request 1 []);
     mcu_resetState := BudgetLink_call (mkT3Request 1 []);
     mcu_enableInputEvents := λ _ _ _, BudgetLink_call tt;
     mcu_close := BudgetLink_call tt |}.

Global Instance BudgetLink_T3MCCommands : T3MCCommands BudgetLink :=
  {| T3MC_findSyncs := Ok [];
     mcu_getDigitalInputs := BudgetLink_call (mkT3Request 1 []);
     mcu_getAnalogInputs := BudgetLink_call (mkT3Request 1 []);
     mcu_setDigitalOutputByte := λ _, BudgetLink_call (mkT3Request 1 []);
     mcu_setDigitalOutputPin := λ _ _, BudgetLink_call (mkT3Request 1 []);
     mcu_setAnalogThresholdValues := λ _, BudgetLink_call (mkT3Request 1 []) |}.

(** A session over [BudgetLink] with one pending request (id 5) and one
    resolved response (id 3). *)
Definition budget_session (port : string) (mcu : option BudgetLink)
    (reporting : bool) : MCU Z BudgetLink :=
  {| serial_port := Some port;
     time_sync_interval := 5;
     _mcu := mcu;
     _request_dict := {[5 := mkT3Request 5 []]};
     _response_dict := {[3 := mkT3Request 3 [1]]};
     _last_sync_time := 0;
     monitor_event_types := ["DigitalInputEvent"%string];
     _is_reporting_events := reporting;
     _last_callback_time := 0;
     _nativeEventBuffer := [];
     _iohub_event_id_counter := 1;
     stderr := [] |}.

(** Runs the method on the left of the goal and reads off the result. *)
Ltac run_session := cbv; reflexivity.

(** * Properties *)

Section Properties.
Context {F L : Type} `{HostClock F} `{EventConstants F} `{T3MC F L}.

Local Abbreviation M := (M F L).
Local Abbreviation elist := (list (pyval F)).

Implicit Types (s : MCU F L) (t now : F) (l : L).

(** ** The poll tick as a whole *)

Lemma with_mcu_None {A : Type} (op : L → result A * L) s :
  _mcu s = None → with_mcu op s = (Raise AttributeError, s).
Proof. intros Hm. unfold with_mcu. by rewrite Hm. Qed.

Lemma with_mcu_Some {A : Type} (op : L → result A * L) s l r l' :
  _mcu s = Some l → op l = (r, l') → with_mcu op s = (r, set_mcu (Some l') s).
Proof. intros Hm Hop. unfold with_mcu. by rewrite Hm, Hop. Qed.

Lemma poll_body_returns_bool t s v s1 :
  poll_body t s = (Ok v, s1) → v = RetBool true ∨ v = RetBool false.
Proof.
  unfold poll_body, bind, isReportingEvents, Device_isReportingEvents, get, ret.
  destruct (poll_link_io t s) as [[[]|e] s0]; [|discriminate]. simpl.
  destruct (_is_reporting_events s0); simpl.
  - destruct (poll_events t s0) as [[[]|e] s2]; [|discriminate].
    destruct (poll_replies s2) as [[[]|e] s3]; [|discriminate].
    unfold modify. intros [= <- _]. by left.
  - intros [= <- _]. by right.
Qed.

(** C2. Whatever state the tick starts from, [_poll] returns to its caller:
    an exception raised anywhere in the body of the tick is caught, written
    to the error stream and turned into the return value [None], which no
    tick that ran through returns (those return [True] or [False]). *)
Theorem poll_catches_every_exception t s :
  (∃ v s', _poll t s = (Ok v, s')) ∧
  (∀ e s1, poll_body t s = (Raise e, s1) →
           _poll t s = (Ok RetNone, set_stderr (stderr s1 ++ [e]) s1)) ∧
  (∀ v s1, poll_body t s = (Ok v, s1) →
           _poll t s = (Ok v, s1) ∧ v ≠ RetNone).
Proof.
  unfold _poll, try_except.
  destruct (poll_body t s) as [[v|e] s1] eqn:Hb.
  - split; [eauto|split].
    + intros e s2 [=].
    + intros v' s2 [= <- <-]. split; [done|].
      by destruct (poll_body_returns_bool _ _ _ _ Hb) as [->| ->].
  - unfold bind, print2err, modify, ret. split; [eauto|split].
    + by intros e' s2 [= <- <-].
    + intros v s2 [=].
Qed.

Lemma poll_link_io_disconnected t s :
  _mcu s = None → poll_link_io t s = (Ok tt, s).
Proof.
  intros Hm. unfold poll_link_io, bind, isConnected, get, ret. cbn.
  by rewrite Hm.
Qed.

(** A tick on a disconnected device that is not reporting does nothing and
    returns [False]. *)
Lemma poll_disconnected_idle t s :
  _mcu s = None → _is_reporting_events s = false →
  _poll t s = (Ok (RetBool false), s).
Proof.
  intros Hm Hr. unfold _poll, try_except, poll_body, bind.
  rewrite poll_link_io_disconnected by done.
  unfold isReportingEvents, Device_isReportingEvents, bind, get, ret. cbn.
  by rewrite Hr.
Qed.

(** C5. A tick on a disconnected device that is reporting events is not a
    no-op: [self._mcu.getRxEvents()] is called on [None], the
    [AttributeError] is caught and printed, and the tick returns [None]. *)
Theorem poll_disconnected_reporting_fails t s :
  _mcu s = None → _is_reporting_events s = true →
  _poll t s = (Ok RetNone, set_stderr (stderr s ++ [AttributeError]) s).
Proof.
  intros Hm Hr. unfold _poll, try_except, poll_body, bind.
  rewrite poll_link_io_disconnected by done.
  unfold isReportingEvents, Device_isReportingEvents, bind, get, ret. cbn.
  rewrite Hr. cbn. unfold poll_events, bind, get. cbn.
  rewrite with_mcu_None by done.
  reflexivity.
Qed.

(** C6 (amended). A tick on a connected device that is not reporting
    events appends nothing to the event buffer, whatever the link does.
    When the link calls of the tick return, the tick has drained the link,
    has run the time sync exactly when the interval had elapsed (and then
    set [_last_sync_time] to the tick's time), and returns [False], the
    value of a tick that ran without an exception.  When the drain or a
    due time sync raises, the exception is printed, the tick returns
    [None] and [_last_sync_time] is not advanced. *)
Theorem poll_idle_tick t s l :
  _mcu s = Some l → _is_reporting_events s = false →
  _nativeEventBuffer (_poll t s).2 = _nativeEventBuffer s ∧
  match mcu_getSerialRx l with
  | (Ok _, l1) =>
      if fge (fsub t (_last_sync_time s)) (time_sync_interval s) then
        match mcu_runTimeSync l1 with
        | (Ok _, l2) =>
            _poll t s = (Ok (RetBool false),
                         set_last_sync_time t (set_mcu (Some l2) s))
        | (Raise e, l2) =>
            _poll t s = (Ok RetNone,
                         set_stderr (stderr s ++ [e]) (set_mcu (Some l2) s))
        end
      else _poll t s = (Ok (RetBool false), set_mcu (Some l1) s)
  | (Raise e, l1) =>
      _poll t s = (Ok RetNone,
                   set_stderr (stderr s ++ [e]) (set_mcu (Some l1) s))
  end.
Proof.
  intros Hm Hr.
  assert (match mcu_getSerialRx l with
          | (Ok _, l1) =>
              if fge (fsub t (_last_sync_time s)) (time_sync_interval s) then
                match mcu_runTimeSync l1 with
                | (Ok _, l2) =>
                    _poll t s = (Ok (RetBool false),
                                 set_last_sync_time t (set_mcu (Some l2) s))
                | (Raise e, l2) =>
                    _poll t s = (Ok RetNone,
                                 set_stderr (stderr s ++ [e])
                                   (set_mcu (Some l2) s))
                end
              else _poll t s = (Ok (RetBool false), set_mcu (Some l1) s)
          | (Raise e, l1) =>
              _poll t s = (Ok RetNone,
                           set_stderr (stderr s ++ [e]) (set_mcu (Some l1) s))
          end) as Hrun.
  { unfold _poll, try_except, poll_body, poll_link_io, bind, isConnected, get, ret.
    cbn. rewrite Hm.
    destruct (mcu_getSerialRx l) as [[[]|e] l1] eqn:Hrx;
      rewrite (with_mcu_Some _ _ _ _ _ Hm Hrx); cbn.
    - destruct (fge (fsub t (_last_sync_time s)) (time_sync_interval s)).
      + destruct (mcu_runTimeSync l1) as [[[]|e] l2] eqn:Hsync;
          rewrite (with_mcu_Some mcu_runTimeSync (set_mcu (Some l1) s)
                     l1 _ l2 eq_refl Hsync).
        * unfold modify, isReportingEvents, Device_isReportingEvents, bind,
            get, ret. cbn. by rewrite Hr.
        * unfold print2err, modify, bind, ret. cbn. by destruct s.
      + unfold isReportingEvents, Device_isReportingEvents, bind, get, ret.
        cbn. by rewrite Hr.
    - unfold print2err, modify, bind, ret. cbn. by destruct s. }
  split; [|exact Hrun].
  destruct (mcu_getSerialRx l) as [[[]|e] l1].
  - destruct (fge (fsub t (_last_sync_time s)) (time_sync_interval s)).
    + destruct (mcu_runTimeSync l1) as [[[]|e] l2]; by rewrite Hrun.
    + by rewrite Hrun.
  - by rewrite Hrun.
Qed.

(** ** The request tracker *)

Lemma for_each_app {A : Type} (xs ys : list A) (body : A → M unit) s :
  for_each (xs ++ ys) body s =
  match for_each xs body s with
  | (Ok _, s') => for_each ys body s'
  | (Raise e, s') => (Raise e, s')
  end.
Proof.
  revert s. induction xs as [|x xs IH]; intros s; [done|].
  cbn. unfold bind. destruct (body x s) as [[[]|e] s1]; [apply IH|done].
Qed.

Lemma reconcile_reply_pending s reply request :
  _request_dict s !! getID reply = Some request →
  reconcile_reply reply s =
  (Ok tt, set_request_dict (delete (getID reply) (_request_dict s))
            (set_response_dict (<[getID reply := reply]> (_response_dict s)) s)).
Proof.
  intros Hp. unfold reconcile_reply, bind, get, modify. cbn.
  rewrite bool_decide_eq_true_2; [done|]. apply elem_of_dom. eauto.
Qed.

Lemma reconcile_reply_not_pending s reply :
  _request_dict s !! getID reply = None → reconcile_reply reply s = (Ok tt, s).
Proof.
  intros Hp. unfold reconcile_reply, bind, get, ret. cbn.
  rewrite bool_decide_eq_false_2; [done|]. by apply not_elem_of_dom.
Qed.

Lemma reconcile_reply_cases s reply :
  reconcile_reply reply s = (Ok tt, s) ∧ _request_dict s !! getID reply = None ∨
  reconcile_reply reply s =
    (Ok tt, set_request_dict (delete (getID reply) (_request_dict s))
              (set_response_dict (<[getID reply := reply]> (_response_dict s)) s))
  ∧ is_Some (_request_dict s !! getID reply).
Proof.
  destruct (_request_dict s !! getID reply) as [request|] eqn:Hp.
  - right. split; [by eapply reconcile_reply_pending|eauto].
  - left. split; [by apply reconcile_reply_not_pending|done].
Qed.

(** Reconciliation never raises, and replies with another id leave the
    entries of an id alone. *)
Lemma reconcile_other_ids X replies s :
  Forall (λ r, getID r ≠ X) replies →
  ∃ s', reconcile replies s = (Ok tt, s') ∧
        _request_dict s' !! X = _request_dict s !! X ∧
        _response_dict s' !! X = _response_dict s !! X.
Proof.
  revert s. induction replies as [|r rs IH]; intros s Hne.
  { exists s. done. }
  apply Forall_cons in Hne as [Hr Hrs].
  unfold reconcile. cbn. unfold bind.
  destruct (reconcile_reply_cases s r) as [[-> _]|[-> _]].
  - apply IH, Hrs.
  - destruct (IH (set_request_dict (delete (getID r) (_request_dict s))
              (set_response_dict (<[getID r := r]> (_response_dict s)) s)) Hrs)
      as (s' & Hrun & Hq & Hp).
    exists s'. split; [exact Hrun|]. rewrite Hq, Hp. cbn.
    by rewrite lookup_delete_ne, lookup_insert_ne.
Qed.

(** Once an id is not pending, no reply changes what is resolved for it. *)
Lemma reconcile_not_pending X replies s :
  _request_dict s !! X = None →
  ∃ s', reconcile replies s = (Ok tt, s') ∧
        _request_dict s' !! X = None ∧
        _response_dict s' !! X = _response_dict s !! X.
Proof.
  revert s. induction replies as [|r rs IH]; intros s Hnp.
  { exists s. done. }
  unfold reconcile. cbn. unfold bind.
  destruct (reconcile_reply_cases s r) as [[-> _]|[-> Hsome]].
  - by apply IH.
  - assert (getID r ≠ X) as Hne.
    { intros Heq. rewrite Heq, Hnp in Hsome. by destruct Hsome. }
    destruct (IH (set_request_dict (delete (getID r) (_request_dict s))
              (set_response_dict (<[getID r := r]> (_response_dict s)) s)))
      as (s' & Hrun & Hq & Hp).
    { cbn. by rewrite lookup_delete_ne. }
    exists s'. split; [exact Hrun|]. split; [exact Hq|]. rewrite Hp. cbn.
    by rewrite lookup_insert_ne.
Qed.

(** Replies none of which is pending are all dropped. *)
Lemma reconcile_all_stale replies s :
  Forall (λ r, _request_dict s !! getID r = None) replies →
  reconcile replies s = (Ok tt, s).
Proof.
  induction replies as [|r rs IH]; intros Hst; [done|].
  apply Forall_cons in Hst as [Hr Hrs].
  unfold reconcile. cbn. unfold bind.
  rewrite reconcile_reply_not_pending by done. by apply IH.
Qed.

(** C9. A reply whose id is not pending is dropped: the loop body returns
    without raising and the state, hence the pending and the resolved
    store, is the one before; the same holds for a tick whose replies are
    that single reply. *)
Theorem stale_reply_discarded s reply :
  _request_dict s !! getID reply = None →
  reconcile_reply reply s = (Ok tt, s) ∧
  reconcile [reply] s = (Ok tt, s) ∧
  (∀ l l', _mcu s = Some l →
           mcu_getRequestReplies true l = (Ok [reply], l') →
           ∃ s', poll_replies s = (Ok tt, s') ∧
                 _response_dict s' = _response_dict s ∧
                 _request_dict s' = _request_dict s).
Proof.
  intros Hst. split; [by apply reconcile_reply_not_pending|]. split.
  - apply reconcile_all_stale. by constructor.
  - intros l l' Hm Hrep. unfold poll_replies, bind.
    rewrite (with_mcu_Some _ _ _ _ _ Hm Hrep).
    exists (set_mcu (Some l') s). split; [|done].
    apply (reconcile_all_stale [reply] (set_mcu (Some l') s)). by constructor.
Qed.

Lemma rid_truthy_nonzero (X : Z) : X ≠ 0 → rid_truthy (Some X) = Some X.
Proof. by destruct X. Qed.

(** A truthy id with no resolved response: [None], store unchanged. *)
Lemma getRequestResponse_unmatched s (X : Z) :
  X ≠ 0 → _response_dict s !! X = None →
  getRequestResponse (Some X) s = (Ok RetNone, s).
Proof.
  intros HX Hr. unfold getRequestResponse. rewrite rid_truthy_nonzero by done.
  unfold bind, get. cbn. by rewrite Hr.
Qed.

(** A truthy id with a resolved response: returned and removed. *)
Lemma getRequestResponse_matched s (X : Z) response :
  X ≠ 0 → _response_dict s !! X = Some response →
  getRequestResponse (Some X) s =
  (Ok (RetDict (asdict response)),
   set_response_dict (delete X (_response_dict s)) s).
Proof.
  intros HX Hr. unfold getRequestResponse. rewrite rid_truthy_nonzero by done.
  unfold bind, get. cbn. by rewrite Hr.
Qed.

Lemma requestTime_tracks s l request l' :
  _mcu s = Some l → mcu_requestTime l = (Ok request, l') →
  requestTime s =
  (Ok (asdict request),
   set_request_dict (<[getID request := request]> (_request_dict s))
     (set_mcu (Some l') s)).
Proof.
  intros Hm Hreq. unfold requestTime, bind.
  by rewrite (with_mcu_Some _ _ _ _ _ Hm Hreq).
Qed.

(** C3 (amended). For a command whose id [X] is not [0] and for which no
    resolved response is held: after [requestTime] returned [X], retrieving
    [X] returns [None]; after the replies of a tick have been reconciled,
    the first of them with id [X] is what the first retrieval of [X]
    returns, the retrieval removes it, and a second retrieval returns
    [None]. *)
Theorem request_reply_correlation s l request l' :
  _mcu s = Some l → mcu_requestTime l = (Ok request, l') →
  getID request ≠ 0 →
  _response_dict s !! getID request = None →
  ∃ s1, requestTime s = (Ok (asdict request), s1) ∧
    getRequestResponse (Some (getID request)) s1 = (Ok RetNone, s1) ∧
    ∀ pre reply post,
      getID reply = getID request →
      Forall (λ r, getID r ≠ getID request) pre →
      ∃ s2 s3,
        reconcile (pre ++ reply :: post) s1 = (Ok tt, s2) ∧
        getRequestResponse (Some (getID request)) s2
          = (Ok (RetDict (asdict reply)), s3) ∧
        _response_dict s3 !! getID request = None ∧
        getRequestResponse (Some (getID request)) s3 = (Ok RetNone, s3).
Proof.
  intros Hm Hreq HX Hfresh.
  eexists. split; [by apply (requestTime_tracks s l request l')|]. split.
  { by apply getRequestResponse_unmatched. }
  intros pre reply post Hid Hpre.
  set (s1 := set_request_dict _ _).
  destruct (reconcile_other_ids _ pre s1 Hpre) as (sa & Hrun_pre & Hqa & Hpa).
  assert (_request_dict sa !! getID reply = Some request) as Hpend.
  { rewrite Hid, Hqa. subst s1. cbn. apply lookup_insert_eq. }
  set (sb := set_request_dict (delete (getID reply) (_request_dict sa))
               (set_response_dict (<[getID reply := reply]> (_response_dict sa)) sa)).
  destruct (reconcile_not_pending (getID request) post sb)
    as (s2 & Hrun_post & Hq2 & Hp2).
  { subst sb. cbn. rewrite Hid. apply lookup_delete_eq. }
  assert (_response_dict s2 !! getID request = Some reply) as Hres.
  { rewrite Hp2. subst sb. cbn. rewrite Hid. apply lookup_insert_eq. }
  exists s2, (set_response_dict (delete (getID request) (_response_dict s2)) s2).
  split; [|split; [|split]].
  - unfold reconcile in *. rewrite for_each_app, Hrun_pre. cbn. unfold bind.
    rewrite (reconcile_reply_pending _ _ _ Hpend). exact Hrun_post.
  - by apply getRequestResponse_matched.
  - cbn. apply lookup_delete_eq.
  - apply getRequestResponse_unmatched; [done|]. cbn. apply lookup_delete_eq.
Qed.

(** C10. With a falsy [rid] ([None] or the id [0]) the call takes the
    bulk path: it empties the resolved store, and the list it returns is
    empty whatever the store held, because [values()] is iterated after
    [clear()]. *)
Theorem getRequestResponse_bulk_returns_empty_list s :
  getRequestResponse None s = (Ok (RetList []), set_response_dict ∅ s) ∧
  getRequestResponse (Some 0) s = (Ok (RetList []), set_response_dict ∅ s).
Proof.
  split; unfold getRequestResponse, bind, modify, get, ret, response_values_view;
    cbn; by rewrite map_to_list_empty.
Qed.

(** ** Disconnect and reset *)

Lemma resetLocalState_clears s l l' now :
  _mcu s = Some l → mcu_runTimeSync l = (Ok tt, l') →
  _resetLocalState now s =
  (Ok tt, set_last_sync_time now
            (set_mcu (Some l')
               (set_response_dict ∅ (set_request_dict ∅ s)))).
Proof.
  intros Hm Hsync. unfold _resetLocalState, bind, modify. cbn.
  by rewrite (with_mcu_Some mcu_runTimeSync _ l (Ok tt) l').
Qed.

Lemma resetState_run s l request l1 l2 now :
  _mcu s = Some l → mcu_resetState l = (Ok request, l1) →
  mcu_runTimeSync l1 = (Ok tt, l2) →
  resetState now s =
  (Ok (asdict request),
   set_request_dict {[getID request := request]}
     (set_last_sync_time now
        (set_mcu (Some l2)
           (set_response_dict ∅ (set_request_dict ∅ s))))).
Proof.
  intros Hm Hreset Hsync. unfold resetState, bind.
  rewrite (with_mcu_Some _ _ _ _ _ Hm Hreset).
  rewrite (resetLocalState_clears _ l1 l2) by done.
  unfold modify, ret. cbn. by rewrite insert_empty.
Qed.

(** C1 (amended). After [resetState()] on a connected device, and after
    [_close()] on a connected device, the resolved store is empty and the
    pending store holds exactly one entry: the reset request that the call
    itself issued. *)
Theorem reset_leaves_only_the_reset_request s l request l1 l2 now :
  _mcu s = Some l → mcu_resetState l = (Ok request, l1) →
  mcu_runTimeSync l1 = (Ok tt, l2) →
  (∃ s', resetState now s = (Ok (asdict request), s') ∧
         _response_dict s' = ∅ ∧
         _request_dict s' = {[getID request := request]}) ∧
  (∀ request' l3 l4,
     mcu_resetState l2 = (Ok request', l3) → mcu_close l3 = (Ok tt, l4) →
     ∃ s', _close now s = (Ok tt, s') ∧
           _mcu s' = None ∧
           _response_dict s' = ∅ ∧
           _request_dict s' = {[getID request := request]}).
Proof.
  intros Hm Hreset Hsync. split.
  - eexists. split; [by eapply resetState_run|]. done.
  - intros request' l3 l4 Hreset' Hclose.
    unfold _close, bind, get. cbn. rewrite Hm.
    rewrite (resetState_run _ _ _ _ _ now Hm Hreset Hsync).
    unfold setConnectionState, bind, get, with_mcu. cbn.
    rewrite Hreset'. cbn. rewrite Hclose.
    unfold modify, isConnected, Device_close, bind, get, ret. cbn.
    eexists. split; [reflexivity|]. done.
Qed.

(** A connect empties both stores. *)
Lemma connect_clears_stores s port l0 l1 now :
  _mcu s = None → port_truthy (serial_port s) = Some port →
  T3MC_new port = Ok l0 → mcu_runTimeSync l0 = (Ok tt, l1) →
  ∃ s', setConnectionState true now s = (Ok true, s') ∧
        _mcu s' = Some l1 ∧ _response_dict s' = ∅ ∧ _request_dict s' = ∅.
Proof.
  intros Hm Hport Hnew Hsync.
  unfold setConnectionState, bind, get. cbn. rewrite Hm, Hport.
  unfold liftR, modify. cbn. rewrite Hnew. cbn.
  unfold _resetLocalState, with_mcu, bind, modify. cbn. rewrite Hsync.
  unfold isConnected, bind, get, ret. cbn.
  eexists. split; [reflexivity|]. done.
Qed.

(** ** Event translation *)

Lemma setitem_Ok (e : elist) (i : nat) (v : pyval F) :
  (i < length e)%nat → setitem e i v = Ok (<[i:=v]> e).
Proof. intros Hi. unfold setitem. by rewrite decide_True. Qed.

Lemma setitem_length (e e' : elist) (i : nat) (v : pyval F) :
  setitem e i v = Ok e' → length e' = length e.
Proof.
  unfold setitem. case_decide; [|done]. intros [= <-]. apply length_insert.
Qed.

Lemma fill_channels_length ivs : ∀ (e e' : elist),
  fill_channels e ivs = Ok e' → length e' = length e.
Proof.
  induction ivs as [|[i v] ivs IH]; intros e e'; cbn.
  - by intros [= <-].
  - destruct (setitem e (i + 11) v) as [e1|] eqn:Hset; [|done]. cbn.
    intros Hfill. rewrite (IH _ _ Hfill). by eapply setitem_length.
Qed.

Lemma new_elist_digital event b :
  event_data event = DigitalInputEvent b →
  new_elist event =
  Ok (Some [UNDEFINED; UNDEFINED; UNDEFINED; UNDEFINED; DIGITAL_INPUT;
            UNDEFINED; UNDEFINED; UNDEFINED; UNDEFINED; UNDEFINED;
            UNDEFINED; PyInt b]).
Proof.
  intros Hd. unfold new_elist. rewrite Hd. cbn.
  rewrite setitem_Ok by (cbn; lia). cbn.
  by rewrite setitem_Ok by (cbn; lia).
Qed.

Lemma new_elist_analog event chs :
  event_data event = AnalogInputEvent chs →
  new_elist event =
  bindR (fill_channels (<[4%nat := ANALOG_INPUT]> (replicate 19 UNDEFINED))
                       (enumerate (PyFloat <$> chs)))
        (λ e, Ok (Some e)).
Proof.
  intros Hd. unfold new_elist. rewrite Hd.
  by rewrite setitem_Ok by (cbn; lia).
Qed.

Lemma new_elist_threshold event flags :
  event_data event = ThresholdEvent flags →
  new_elist event =
  bindR (fill_channels (<[4%nat := THRESHOLD]> (replicate 19 UNDEFINED))
                       (enumerate (PyBool <$> flags)))
        (λ e, Ok (Some e)).
Proof.
  intros Hd. unfold new_elist. rewrite Hd.
  by rewrite setitem_Ok by (cbn; lia).
Qed.

Lemma new_elist_length event (e : elist) :
  new_elist event = Ok (Some e) → length e = 12%nat ∨ length e = 19%nat.
Proof.
  destruct (event_data event) as [chs|b|flags|ty] eqn:Hd.
  - rewrite (new_elist_analog _ _ Hd).
    destruct (fill_channels _ _) as [e1|] eqn:Hfill; [|done]. cbn.
    intros [= <-]. right. by rewrite (fill_channels_length _ _ _ Hfill).
  - rewrite (new_elist_digital _ _ Hd). intros [= <-]. by left.
  - rewrite (new_elist_threshold _ _ Hd).
    destruct (fill_channels _ _) as [e1|] eqn:Hfill; [|done]. cbn.
    intros [= <-]. right. by rewrite (fill_channels_length _ _ _ Hfill).
  - unfold new_elist. by rewrite Hd.
Qed.

Lemma new_elist_unknown event :
  recognized event = false → new_elist event = Ok None.
Proof.
  unfold recognized, new_elist. by destruct (event_data event).
Qed.

Lemma new_elist_recognized event :
  recognized event = true → new_elist event ≠ Ok None.
Proof.
  unfold recognized.
  destruct (event_data event) as [chs|b|flags|ty] eqn:Hd; try done; intros _.
  - rewrite (new_elist_analog _ _ Hd). by destruct (fill_channels _ _).
  - by rewrite (new_elist_digital _ _ Hd).
  - rewrite (new_elist_threshold _ _ Hd). by destruct (fill_channels _ _).
Qed.

Lemma translate_event_raise t ci event s e :
  new_elist event = Raise e → translate_event t ci event s = (Raise e, s).
Proof. intros Hn. unfold translate_event, bind, liftR. by rewrite Hn. Qed.

Lemma translate_event_drop t ci event s :
  new_elist event = Ok None → translate_event t ci event s = (Ok tt, s).
Proof. intros Hn. unfold translate_event, bind, liftR. by rewrite Hn. Qed.

Lemma translate_event_emit t ci event s (e : elist) :
  new_elist event = Ok (Some e) →
  translate_event t ci event s =
  (Ok tt,
   set_nativeEventBuffer
     (_nativeEventBuffer s ++ [host_event e (_iohub_event_id_counter s) t ci event])
     (set_iohub_event_id_counter (_iohub_event_id_counter s + 1) s)).
Proof.
  intros Hn.
  assert (11 < length e)%nat as Hlen.
  { destruct (new_elist_length _ _ Hn) as [-> | ->]; lia. }
  unfold translate_event, bind, liftR. rewrite Hn.
  assert (elist_truthy (Some e) = Some e) as ->.
  { destruct e; [cbn in Hlen; lia|done]. }
  unfold _getNextEventID, _addNativeEventToBuffer, bind, get, modify, ret.
  repeat (rewrite setitem_Ok by (rewrite ?length_insert; lia)).
  reflexivity.
Qed.

(** The loop over the events of a tick: the records appended are those of
    the recognized events among the first [k], one after the other, where
    [k] counts the events handled before the loop ended. *)
Lemma translate_events_emit t ci evs : ∀ s,
  ∃ (k : nat) (es : list elist),
    (k ≤ length evs)%nat ∧
    Forall2 (emitted_for t ci) (List.filter recognized (take k evs)) es ∧
    (for_each evs (translate_event t ci) s).2 =
      set_nativeEventBuffer (_nativeEventBuffer s ++ es)
        (set_iohub_event_id_counter
           (_iohub_event_id_counter s + Z.of_nat (length es)) s) ∧
    ((for_each evs (translate_event t ci) s).1 = Ok tt → k = length evs).
Proof.
  induction evs as [|ev evs IH]; intros s.
  { exists 0%nat, []. cbn. rewrite app_nil_r, Z.add_0_r.
    split; [done|]. split; [constructor|]. split; [by destruct s|done]. }
  destruct (new_elist ev) as [[e|]|err] eqn:Hn.
  - set (s1 := set_nativeEventBuffer
                 (_nativeEventBuffer s ++
                    [host_event e (_iohub_event_id_counter s) t ci ev])
                 (set_iohub_event_id_counter (_iohub_event_id_counter s + 1) s)).
    assert (for_each (ev :: evs) (translate_event t ci) s
            = for_each evs (translate_event t ci) s1) as ->.
    { cbn [for_each]. unfold bind. by rewrite (translate_event_emit _ _ _ _ _ Hn). }
    destruct (IH s1) as (k & es & Hk & Hes & Hst & Hok).
    exists (S k), (host_event e (_iohub_event_id_counter s) t ci ev :: es).
    split; [cbn; lia|]. split; [|split].
    + cbn [take List.filter].
      destruct (recognized ev) eqn:Hrec.
      * constructor; [|done]. by exists e, (_iohub_event_id_counter s).
      * by rewrite (new_elist_unknown _ Hrec) in Hn.
    + rewrite Hst. subst s1. cbn.
      rewrite <- app_assoc. cbn.
      by replace (_iohub_event_id_counter s + 1 + Z.of_nat (length es))
        with (_iohub_event_id_counter s + Z.pos (Pos.of_succ_nat (length es))) by lia.
    + intros Hr. cbn. f_equal. by apply Hok.
  - assert (for_each (ev :: evs) (translate_event t ci) s
            = for_each evs (translate_event t ci) s) as ->.
    { cbn [for_each]. unfold bind. by rewrite (translate_event_drop _ _ _ _ Hn). }
    destruct (IH s) as (k & es & Hk & Hes & Hst & Hok).
    exists (S k), es. split; [cbn; lia|]. split; [|split].
    + cbn [take List.filter].
      destruct (recognized ev) eqn:Hrec; [|done].
      by destruct (new_elist_recognized _ Hrec).
    + done.
    + intros Hr. cbn. f_equal. by apply Hok.
  - assert (for_each (ev :: evs) (translate_event t ci) s = (Raise err, s)) as ->.
    { cbn [for_each]. unfold bind. by rewrite (translate_event_raise _ _ _ _ _ Hn). }
    exists 0%nat, []. cbn. rewrite app_nil_r, Z.add_0_r.
    split; [lia|]. split; [constructor|]. split; [by destruct s|done].
Qed.

(** *** What each phase of the tick leaves alone *)

Lemma poll_link_io_frame t s :
  ∃ m ls, (poll_link_io t s).2 = set_last_sync_time ls (set_mcu m s).
Proof.
  unfold poll_link_io, bind, isConnected, get, ret. cbn.
  destruct (_mcu s) as [l|] eqn:Hm.
  - destruct (mcu_getSerialRx l) as [r1 l1] eqn:Hrx.
    rewrite (with_mcu_Some _ _ _ _ _ Hm Hrx).
    destruct r1 as [[]|e]; cbn.
    + match goal with |- context [fge ?a ?b] => destruct (fge a b) end.
      * destruct (mcu_runTimeSync l1) as [r2 l2] eqn:Hsync.
        rewrite (with_mcu_Some mcu_runTimeSync (set_mcu (Some l1) s) l1 r2 l2)
          by done.
        destruct r2 as [[]|e]; cbn.
        -- by exists (Some l2), t.
        -- exists (Some l2), (_last_sync_time s). by destruct s.
      * exists (Some l1), (_last_sync_time s). by destruct s.
    + exists (Some l1), (_last_sync_time s). by destruct s.
  - exists None, (_last_sync_time s). destruct s. cbn in *. by subst.
Qed.

Lemma reconcile_frame replies : ∀ s,
  ∃ rq rs, reconcile replies s
           = (Ok tt, set_request_dict rq (set_response_dict rs s)).
Proof.
  induction replies as [|r replies IH]; intros s.
  { exists (_request_dict s), (_response_dict s). by destruct s. }
  unfold reconcile. cbn [for_each]. unfold bind.
  destruct (reconcile_reply_cases s r) as [[-> _]|[-> _]].
  - apply IH.
  - destruct (IH (set_request_dict (delete (getID r) (_request_dict s))
              (set_response_dict (<[getID r := r]> (_response_dict s)) s)))
      as (rq & rs & Heq).
    unfold reconcile in Heq. rewrite Heq. by exists rq, rs.
Qed.

Lemma poll_replies_frame s :
  ∃ m rq rs, (poll_replies s).2
             = set_mcu m (set_request_dict rq (set_response_dict rs s)).
Proof.
  unfold poll_replies, bind, with_mcu.
  destruct (_mcu s) as [l|] eqn:Hm.
  - destruct (mcu_getRequestReplies true l) as [[replies|e] l1].
    + destruct (reconcile_frame replies (set_mcu (Some l1) s)) as (rq & rs & ->).
      by exists (Some l1), rq, rs.
    + exists (Some l1), (_request_dict s), (_response_dict s). by destruct s.
  - exists None, (_request_dict s), (_response_dict s).
    destruct s. cbn in *. by subst.
Qed.

Lemma poll_events_run t s l evs l' :
  _mcu s = Some l → mcu_getRxEvents l = (Ok evs, l') →
  poll_events t s =
  for_each evs (translate_event t (fsub t (_last_callback_time s)))
           (set_mcu (Some l') s).
Proof.
  intros Hm Hev. unfold poll_events, bind, get. cbn.
  by rewrite (with_mcu_Some _ _ _ _ _ Hm Hev).
Qed.

Lemma poll_events_frame t s :
  ∃ m es c, (poll_events t s).2
            = set_nativeEventBuffer (_nativeEventBuffer s ++ es)
                (set_iohub_event_id_counter c (set_mcu m s)).
Proof.
  destruct (_mcu s) as [l|] eqn:Hm.
  - destruct (mcu_getRxEvents l) as [[evs|e] l1] eqn:Hev.
    + rewrite (poll_events_run _ _ _ _ _ Hm Hev).
      destruct (translate_events_emit t (fsub t (_last_callback_time s)) evs
                  (set_mcu (Some l1) s)) as (k & es & _ & _ & -> & _).
      by exists (Some l1), es, (_iohub_event_id_counter s + Z.of_nat (length es)).
    + unfold poll_events, bind, get. cbn.
      rewrite (with_mcu_Some _ _ _ _ _ Hm Hev). cbn.
      exists (Some l1), [], (_iohub_event_id_counter s).
      rewrite app_nil_r. by destruct s.
  - unfold poll_events, bind, get. cbn. rewrite with_mcu_None by done. cbn.
    exists None, [], (_iohub_event_id_counter s).
    rewrite app_nil_r. destruct s. cbn in *. by subst.
Qed.

Local Arguments poll_events : simpl never.
Local Arguments poll_replies : simpl never.

(** The tick once the link phase is over and events are being reported. *)
Lemma poll_reporting t s s1 :
  poll_link_io t s = (Ok tt, s1) → _is_reporting_events s = true →
  _poll t s =
  match poll_events t s1 with
  | (Ok _, s2) =>
      match poll_replies s2 with
      | (Ok _, s3) => (Ok (RetBool true), set_last_callback_time t s3)
      | (Raise e, s3) => (Ok RetNone, set_stderr (stderr s3 ++ [e]) s3)
      end
  | (Raise e, s2) => (Ok RetNone, set_stderr (stderr s2 ++ [e]) s2)
  end.
Proof.
  intros Hio Hrep.
  assert (_is_reporting_events s1 = true) as Hrep1.
  { destruct (poll_link_io_frame t s) as (m & ls & Hfr).
    rewrite Hio in Hfr. cbn in Hfr. by rewrite Hfr. }
  unfold _poll, try_except, poll_body, bind. rewrite Hio.
  unfold isReportingEvents, Device_isReportingEvents, bind, get, ret. cbn.
  rewrite Hrep1. cbn.
  destruct (poll_events t s1) as [[[]|e] s2]; [|done].
  by destruct (poll_replies s2) as [[[]|e] s3].
Qed.

(** The records a reporting tick appends to the event buffer. *)
Lemma poll_emits t s s1 l evs l' :
  poll_link_io t s = (Ok tt, s1) → _is_reporting_events s = true →
  _mcu s1 = Some l → mcu_getRxEvents l = (Ok evs, l') →
  ∃ (k : nat) (es : list elist),
    (k ≤ length evs)%nat ∧
    ((_poll t s).1 = Ok (RetBool true) → k = length evs) ∧
    _nativeEventBuffer (_poll t s).2 = _nativeEventBuffer s ++ es ∧
    Forall2 (emitted_for t (fsub t (_last_callback_time s)))
            (List.filter recognized (take k evs)) es.
Proof.
  intros Hio Hrep Hm Hev.
  destruct (poll_link_io_frame t s) as (m & ls & Hfr).
  rewrite Hio in Hfr. cbn in Hfr.
  rewrite (poll_reporting _ _ _ Hio Hrep), (poll_events_run _ _ _ _ _ Hm Hev).
  destruct (translate_events_emit t (fsub t (_last_callback_time s1)) evs
              (set_mcu (Some l') s1)) as (k & es & Hk & Hes & Hst & Hok).
  exists k, es. split; [done|].
  assert (_last_callback_time s1 = _last_callback_time s) as Hcb by by rewrite Hfr.
  rewrite Hcb in *.
  destruct (for_each evs _ _) as [r2 s2]. cbn in Hst, Hok.
  assert (_nativeEventBuffer s2 = _nativeEventBuffer s ++ es) as Hbuf.
  { rewrite Hst, Hfr. done. }
  destruct r2 as [[]|e]; cbn.
  - destruct (poll_replies_frame s2) as (m3 & rq & rs & Hfr3).
    destruct (poll_replies s2) as [[[]|e] s3]; cbn in *; subst s3; cbn;
      (split; [by auto|]); by split.
  - split; [done|]. by split.
Qed.


Lemma host_event_length (e : elist) eid t ci ev :
  length (host_event e eid t ci ev) = length e.
Proof. unfold host_event. by rewrite !length_insert. Qed.

Lemma host_event_payload (e : elist) eid t ci ev (j : nat) :
  (11 ≤ j)%nat → host_event e eid t ci ev !! j = e !! j.
Proof.
  intros Hj. unfold host_event. by rewrite !list_lookup_insert_ne by lia.
Qed.

Lemma host_event_times (e : elist) eid t ci ev :
  (11 < length e)%nat →
  host_event e eid t ci ev !! 6%nat = Some (PyFloat t) ∧
  host_event e eid t ci ev !! 7%nat
    = Some (PyFloat (default t (local_time ev))) ∧
  host_event e eid t ci ev !! 8%nat = Some (PyFloat ci) ∧
  host_event e eid t ci ev !! 9%nat
    = Some (PyFloat (fsub t (default t (local_time ev)))).
Proof.
  intros Hlen. unfold host_event. repeat split.
  - rewrite !list_lookup_insert_ne by lia.
    apply list_lookup_insert_eq. rewrite !length_insert. lia.
  - rewrite !list_lookup_insert_ne by lia.
    apply list_lookup_insert_eq. rewrite !length_insert. lia.
  - rewrite !list_lookup_insert_ne by lia.
    apply list_lookup_insert_eq. rewrite !length_insert. lia.
  - rewrite !list_lookup_insert_ne by lia.
    apply list_lookup_insert_eq. rewrite !length_insert. lia.
Qed.

(** [_last_callback_time] is the time of the last tick that returned
    [True]: such a tick stores its own time, every other tick leaves the
    field as it was. *)
Lemma poll_last_callback_time t s :
  ((_poll t s).1 = Ok (RetBool true) → _last_callback_time (_poll t s).2 = t) ∧
  ((_poll t s).1 ≠ Ok (RetBool true) →
   _last_callback_time (_poll t s).2 = _last_callback_time s).
Proof.
  destruct (poll_link_io_frame t s) as (m1 & ls & Hfr1).
  unfold _poll, try_except, poll_body, bind.
  destruct (poll_link_io t s) as [[[]|e1] s1]; cbn in Hfr1; subst s1.
  2:{ cbn. by split. }
  unfold isReportingEvents, Device_isReportingEvents, bind, get, ret. cbn.
  destruct (_is_reporting_events s); cbn; [|by split].
  set (s1 := set_last_sync_time ls (set_mcu m1 s)).
  destruct (poll_events_frame t s1) as (m2 & es & c & Hfr2).
  destruct (poll_events t s1) as [[[]|e2] s2]; cbn in Hfr2; subst s2.
  2:{ cbn. by split. }
  set (s2 := set_nativeEventBuffer _ _).
  destruct (poll_replies_frame s2) as (m3 & rq & rs & Hfr3).
  destruct (poll_replies s2) as [[[]|e3] s3]; cbn in Hfr3; subst s3; cbn;
    by split.
Qed.

(** C7 (amended). The records a reporting tick with start time [t]
    appends are paired, one to one and in order, with the events the tick
    translated, and the record of each event carries: in slot 7 (host
    time) the event's own host-time stamp when it has one and [t]
    otherwise, in slot 9 (delay) [t] minus that host time, and in slot 8
    (confidence interval) [t] minus [_last_callback_time], the start time
    of the last tick that returned [True]: a tick that returns [False] or
    [None] leaves [_last_callback_time] as it was. *)
Theorem host_event_timing t s s1 l evs l' :
  poll_link_io t s = (Ok tt, s1) → _is_reporting_events s = true →
  _mcu s1 = Some l → mcu_getRxEvents l = (Ok evs, l') →
  (∃ es : list elist,
     _nativeEventBuffer (_poll t s).2 = _nativeEventBuffer s ++ es ∧
     (∃ k : nat,
        Forall2 (timed_for t (_last_callback_time s))
                (List.filter recognized (take k evs)) es) ∧
     ((_poll t s).1 = Ok (RetBool true) →
      Forall2 (timed_for t (_last_callback_time s))
              (List.filter recognized evs) es)) ∧
  ((_poll t s).1 = Ok (RetBool true) → _last_callback_time (_poll t s).2 = t) ∧
  ((_poll t s).1 ≠ Ok (RetBool true) →
   _last_callback_time (_poll t s).2 = _last_callback_time s).
Proof.
  intros Hio Hrep Hm Hev. split; [|apply poll_last_callback_time].
  destruct (poll_emits _ _ _ _ _ _ Hio Hrep Hm Hev)
    as (k & es & _ & Hall & Hbuf & Hes).
  assert (∀ ev e, emitted_for t (fsub t (_last_callback_time s)) ev e →
                  timed_for t (_last_callback_time s) ev e) as Htimed.
  { intros ev e (l0 & eid & Hn & ->).
    assert (11 < length l0)%nat as Hlen.
    { destruct (new_elist_length _ _ Hn) as [-> | ->]; lia. }
    destruct (host_event_times l0 eid t (fsub t (_last_callback_time s)) ev Hlen)
      as (H6 & H7 & H8 & H9).
    by repeat split. }
  exists es. split; [exact Hbuf|]. split.
  - exists k. eapply Forall2_impl; [exact Hes|exact Htimed].
  - intros Htrue. specialize (Hall Htrue). subst k.
    rewrite firstn_all in Hes. eapply Forall2_impl; [exact Hes|exact Htimed].
Qed.

(** C8 (amended). The loop body turns a digital input event with state
    byte [b] into a record of twelve slots: the eleven leading fields, all
    assigned, and the state byte in the last slot (index 11).  There is no
    further payload slot, so none holds the sentinel. *)
Theorem digital_event_record t ci ev b s :
  event_data ev = DigitalInputEvent b →
  translate_event t ci ev s =
  (Ok tt,
   set_nativeEventBuffer
     (_nativeEventBuffer s ++
        [[PyInt 0; PyInt 0; PyInt 0; PyInt (_iohub_event_id_counter s);
          DIGITAL_INPUT; PyFloat (device_time ev); PyFloat t;
          PyFloat (default t (local_time ev)); PyFloat ci;
          PyFloat (fsub t (default t (local_time ev))); PyInt 0; PyInt b]])
     (set_iohub_event_id_counter (_iohub_event_id_counter s + 1) s)).
Proof.
  intros Hd.
  by rewrite (translate_event_emit _ _ _ _ _ (new_elist_digital _ _ Hd)).
Qed.

(** The channels of an analog event go to the slots from 11 on, in
    order. *)
Lemma fill_channels_enumerate (vs : list (pyval F)) : ∀ (j : nat) (e : elist),
  (j + 11 + length vs ≤ length e)%nat →
  fill_channels e (imap (λ i v, ((j + i)%nat, v)) vs)
  = Ok (list_inserts (j + 11) vs e).
Proof.
  induction vs as [|v vs IH]; intros j e Hlen; [done|].
  cbn in Hlen. cbn [imap fill_channels].
  rewrite Nat.add_0_r, setitem_Ok by lia. cbn [bindR].
  rewrite (imap_ext _ (λ i v, ((S j + i)%nat, v))) by (intros; cbn; f_equal; lia).
  rewrite IH by (rewrite length_insert; lia).
  f_equal. cbn [list_inserts]. by rewrite list_insert_inserts_lt by lia.
Qed.

(** The record of an analog event with at most eight channels has
    nineteen slots: slot [11 + i] holds channel [i], and the slots up to
    18 that no channel fills hold the sentinel. *)
Lemma analog_event_record t ci ev chs s :
  event_data ev = AnalogInputEvent chs → (length chs ≤ 8)%nat →
  ∃ e : elist,
    translate_event t ci ev s =
      (Ok tt, set_nativeEventBuffer (_nativeEventBuffer s ++ [e])
                (set_iohub_event_id_counter (_iohub_event_id_counter s + 1) s)) ∧
    length e = 19%nat ∧
    e !! 4%nat = Some ANALOG_INPUT ∧
    (∀ i x, chs !! i = Some x → e !! (11 + i)%nat = Some (PyFloat x)) ∧
    (∀ i, (length chs ≤ i < 8)%nat → e !! (11 + i)%nat = Some UNDEFINED).
Proof.
  intros Hd Hlen.
  set (e0 := <[4%nat := ANALOG_INPUT]> (replicate 19 UNDEFINED) : elist).
  assert (new_elist ev = Ok (Some (list_inserts 11 (PyFloat <$> chs) e0))) as Hn.
  { rewrite (new_elist_analog _ _ Hd). fold e0. unfold enumerate.
    rewrite (fill_channels_enumerate _ 0 e0); [done|].
    rewrite length_fmap. subst e0. rewrite length_insert, length_replicate. lia. }
  eexists. split; [by apply translate_event_emit|].
  assert (length e0 = 19%nat) as He0.
  { subst e0. by rewrite length_insert, length_replicate. }
  split; [|split; [|split]].
  - by rewrite host_event_length, length_inserts.
  - unfold host_event. rewrite !list_lookup_insert_ne by lia.
    rewrite list_lookup_inserts_lt by lia. subst e0.
    apply list_lookup_insert_eq. rewrite length_replicate. lia.
  - intros i x Hi. rewrite host_event_payload by lia.
    pose proof (lookup_lt_Some _ _ _ Hi) as Hlt.
    rewrite list_lookup_inserts by (rewrite ?length_fmap; lia).
    replace (11 + i - 11)%nat with i by lia.
    by rewrite list_lookup_fmap, Hi.
  - intros i Hi. rewrite host_event_payload by lia.
    rewrite list_lookup_inserts_ge by (rewrite length_fmap; lia).
    subst e0. rewrite list_lookup_insert_ne by lia.
    apply lookup_replicate_2. lia.
Qed.

End Properties.

(** * Further behaviour of the module *)

Section Behaviour.
Context {F L : Type} `{HostClock F} `{EventConstants F} `{T3MC F L}
        `{T3MCCommands L}.

Local Abbreviation M := (M F L).
Local Abbreviation elist := (list (pyval F)).

Implicit Types (s : MCU F L) (t now : F) (l : L).

(** ** Connecting and disconnecting *)

(** X1. Whenever [setConnectionState] returns, the value it returns is the
    connection state the device is left in. *)
Theorem setConnectionState_reports_connection enable now s b s' :
  setConnectionState enable now s = (Ok b, s') → b = connected s'.
Proof.
  unfold setConnectionState, bind at 1, get. cbn. unfold bind at 1.
  match goal with
  | |- context [match ?x with (_, _) => _ end] => destruct x as [[[]|e] s1]
  end; [|done].
  unfold isConnected, bind, get, ret. cbn. by intros [= <- <-].
Qed.

(** X2. Asking for the connection state the device already has does
    nothing: no link call is made and no field changes. *)
Theorem setConnectionState_same_state enable now s :
  enable = connected s → setConnectionState enable now s = (Ok enable, s).
Proof.
  unfold connected, setConnectionState, bind, get, isConnected, ret. cbn.
  destruct (_mcu s) as [l|] eqn:Hm; intros ->; cbn; by rewrite ?Hm.
Qed.

(** X3. A connect on a device without a usable port ([None] or the empty
    string) leaves it disconnected and changes nothing. *)
Theorem connect_without_port now s :
  _mcu s = None → port_truthy (serial_port s) = None →
  setConnectionState true now s = (Ok false, s).
Proof.
  intros Hm Hp.
  unfold setConnectionState, bind, get, isConnected, ret. cbn.
  by rewrite Hm, Hp, ?Hm.
Qed.

(** X4. A successful connect opens the link on the configured port, empties
    both stores, runs one time sync and records its time. *)
Theorem connect_starts_fresh s port l0 l1 now :
  _mcu s = None → port_truthy (serial_port s) = Some port →
  T3MC_new port = Ok l0 → mcu_runTimeSync l0 = (Ok tt, l1) →
  setConnectionState true now s =
  (Ok true,
   set_last_sync_time now
     (set_response_dict ∅ (set_request_dict ∅ (set_mcu (Some l1) s)))).
Proof.
  intros Hm Hport Hnew Hsync.
  unfold setConnectionState, bind, get. cbn. rewrite Hm, Hport.
  unfold liftR, modify. cbn. rewrite Hnew. cbn.
  unfold _resetLocalState, with_mcu, bind, modify. cbn. rewrite Hsync.
  unfold isConnected, bind, get, ret. cbn. by destruct s.
Qed.

(** X5. When opening the link raises, the exception reaches the caller and
    the device is as before: disconnected, stores untouched. *)
Theorem connect_open_failure s port e now :
  _mcu s = None → port_truthy (serial_port s) = Some port →
  T3MC_new port = Raise e →
  setConnectionState true now s = (Raise e, s).
Proof.
  intros Hm Hport Hnew.
  unfold setConnectionState, bind, get. cbn. rewrite Hm, Hport.
  unfold liftR. cbn. by rewrite Hnew.
Qed.

(** X6. When the link opens but the first time sync raises, the exception
    reaches the caller with the device left connected: the link handle is
    set, both stores are empty and [_last_sync_time] is [0.0]. *)
Theorem connect_sync_failure s port l0 l1 e now :
  _mcu s = None → port_truthy (serial_port s) = Some port →
  T3MC_new port = Ok l0 → mcu_runTimeSync l0 = (Raise e, l1) →
  setConnectionState true now s =
  (Raise e,
   set_last_sync_time fzero
     (set_response_dict ∅ (set_request_dict ∅ (set_mcu (Some l1) s)))).
Proof.
  intros Hm Hport Hnew Hsync.
  unfold setConnectionState, bind, get. cbn. rewrite Hm, Hport.
  unfold liftR, modify. cbn. rewrite Hnew. cbn.
  unfold _resetLocalState, with_mcu, bind, modify. cbn. rewrite Hsync.
  by destruct s.
Qed.

(** X7. A successful disconnect sends the link a reset, closes it and
    drops the handle; it changes no other field, so pending requests and
    resolved responses survive it. *)
Theorem disconnect_changes_only_link s l request l1 l2 now :
  _mcu s = Some l → mcu_resetState l = (Ok request, l1) →
  mcu_close l1 = (Ok tt, l2) →
  setConnectionState false now s = (Ok false, set_mcu None s).
Proof.
  intros Hm Hreset Hclose.
  unfold setConnectionState, bind, get, with_mcu. cbn.
  repeat (first [rewrite Hm | rewrite Hreset | rewrite Hclose]; cbn).
  unfold modify, isConnected, bind, get, ret. cbn.
  by destruct s.
Qed.

(** X8. When the link raises during a disconnect, in the reset or in the
    close, the exception reaches the caller and the device stays
    connected, with its stores unchanged. *)
Theorem failed_disconnect_stays_connected s l e now :
  _mcu s = Some l →
  (∃ l1, mcu_resetState l = (Raise e, l1)) ∨
  (∃ request l1 l2, mcu_resetState l = (Ok request, l1) ∧
                    mcu_close l1 = (Raise e, l2)) →
  ∃ l', setConnectionState false now s = (Raise e, set_mcu (Some l') s).
Proof.
  intros Hm [(l1 & Hreset)|(request & l1 & l2 & Hreset & Hclose)].
  - exists l1.
    unfold setConnectionState, bind, get, with_mcu. cbn.
    by repeat (first [rewrite Hm | rewrite Hreset]; cbn).
  - exists l2.
    unfold setConnectionState, bind, get, with_mcu. cbn.
    repeat (first [rewrite Hm | rewrite Hreset | rewrite Hclose]; cbn).
    by destruct s.
Qed.

(** X9. Disconnecting and connecting again leaves no request and no
    response of the earlier connection behind. *)
Theorem reconnect_clears_stores s l request l1 l2 port l3 l4 now :
  _mcu s = Some l → mcu_resetState l = (Ok request, l1) →
  mcu_close l1 = (Ok tt, l2) →
  port_truthy (serial_port s) = Some port →
  T3MC_new port = Ok l3 → mcu_runTimeSync l3 = (Ok tt, l4) →
  ∃ s1 s2,
    setConnectionState false now s = (Ok false, s1) ∧
    _request_dict s1 = _request_dict s ∧ _response_dict s1 = _response_dict s ∧
    setConnectionState true now s1 = (Ok true, s2) ∧
    _request_dict s2 = ∅ ∧ _response_dict s2 = ∅ ∧
    _mcu s2 = Some l4 ∧ _last_sync_time s2 = now.
Proof.
  intros Hm Hreset Hclose Hport Hnew Hsync.
  exists (set_mcu None s),
    (set_last_sync_time now
       (set_response_dict ∅ (set_request_dict ∅ (set_mcu (Some l4) s)))).
  split.
  { unfold setConnectionState, bind, get, with_mcu. cbn.
    repeat (first [rewrite Hm | rewrite Hreset | rewrite Hclose]; cbn).
    unfold modify, isConnected, bind, get, ret. cbn. by destruct s. }
  split; [done|]. split; [done|]. split; [|done].
  unfold setConnectionState, bind, get. cbn. rewrite Hport.
  unfold liftR, modify. cbn. rewrite Hnew. cbn.
  unfold _resetLocalState, with_mcu, bind, modify. cbn. rewrite Hsync.
  unfold isConnected, bind, get, ret. cbn. by destruct s.
Qed.

(** ** Commands *)

(** [requestTime] is one of the wrappers with the shared body. *)
Lemma requestTime_submit : requestTime = submit mcu_requestTime.
Proof. reflexivity. Qed.

(** X10. A request wrapper ([requestTime], [getDigitalInputs],
    [getAnalogInputs], [setDigitalOutputByte], [setDigitalOutputPin],
    [setAnalogThresholdValues]) on a connected device whose link returns
    the request: the request becomes pending under its id (replacing a
    pending request with the same id), all other pending requests and the
    resolved store are unchanged, and the caller gets the request as a
    dictionary. *)
Theorem wrapper_tracks_request (op : L → result T3Request * L) s l request l' :
  _mcu s = Some l → op l = (Ok request, l') →
  ∃ s', submit op s = (Ok (asdict request), s') ∧
        _request_dict s' !! getID request = Some request ∧
        (∀ k, k ≠ getID request → _request_dict s' !! k = _request_dict s !! k) ∧
        _response_dict s' = _response_dict s.
Proof.
  intros Hm Hop. unfold submit, bind.
  rewrite (with_mcu_Some _ _ _ _ _ Hm Hop). unfold modify, ret. cbn.
  eexists. split; [reflexivity|]. cbn. split; [apply lookup_insert_eq|].
  split; [|done]. intros k Hk. by rewrite lookup_insert_ne.
Qed.

(** X11. A command on a disconnected device, through a request wrapper
    or through [resetState], raises [AttributeError] and changes
    nothing. *)
Theorem command_on_disconnected_device (op : L → result T3Request * L) now s :
  _mcu s = None →
  submit op s = (Raise AttributeError, s) ∧
  resetState now s = (Raise AttributeError, s).
Proof.
  intros Hm. unfold submit, resetState, bind.
  by rewrite !with_mcu_None.
Qed.

(** X12. When the link raises while it builds the request, in a request
    wrapper or in [resetState], the exception reaches the caller, no
    request is recorded and both stores are as before ([resetState] has
    not cleared them yet). *)
Theorem command_link_failure (op : L → result T3Request * L) now s l e l' :
  _mcu s = Some l →
  (op l = (Raise e, l') → submit op s = (Raise e, set_mcu (Some l') s)) ∧
  (mcu_resetState l = (Raise e, l') →
   resetState now s = (Raise e, set_mcu (Some l') s)).
Proof.
  intros Hm. split; intros Hop; unfold submit, resetState, bind;
    by rewrite (with_mcu_Some _ _ _ _ _ Hm Hop).
Qed.

(** X13. [resetState] when the time sync after the reset raises: the
    exception reaches the caller after both stores were emptied, the reset
    request is not recorded, and [_last_sync_time] is left at [0.0]. *)
Theorem resetState_sync_failure s l request l1 e l2 now :
  _mcu s = Some l → mcu_resetState l = (Ok request, l1) →
  mcu_runTimeSync l1 = (Raise e, l2) →
  resetState now s =
  (Raise e,
   set_last_sync_time fzero
     (set_mcu (Some l2) (set_response_dict ∅ (set_request_dict ∅ s)))).
Proof.
  intros Hm Hreset Hsync. unfold resetState, bind.
  rewrite (with_mcu_Some _ _ _ _ _ Hm Hreset).
  unfold _resetLocalState, with_mcu, bind, modify. cbn.
  by rewrite Hsync.
Qed.

(** ** Reconciliation and retrieval *)

(** X14. What reconciling a list of replies does to an id [X]: if [X]
    is pending and a reply carries it, the first such reply becomes the
    resolved response of [X] and [X] is no longer pending; in every other
    case the pending and the resolved entry of [X] are what they were.
    Reconciliation never raises. *)
Theorem reconcile_outcome replies s :
  ∃ s', reconcile replies s = (Ok tt, s') ∧
    ∀ X,
      match _request_dict s !! X, list_find (λ r, getID r = X) replies with
      | Some _, Some (_, reply) =>
          _request_dict s' !! X = None ∧ _response_dict s' !! X = Some reply
      | _, _ =>
          _request_dict s' !! X = _request_dict s !! X ∧
          _response_dict s' !! X = _response_dict s !! X
      end.
Proof.
  destruct (reconcile_frame replies s) as (rq & rs & Hrun).
  eexists. split; [exact Hrun|]. intros X.
  destruct (_request_dict s !! X) as [request|] eqn:Hpend.
  - destruct (list_find (λ r, getID r = X) replies) as [[i reply]|] eqn:Hfind.
    + apply list_find_Some in Hfind as (Hi & Hid & Hbefore).
      assert (Forall (λ r, getID r ≠ X) (take i replies)) as Hpre.
      { apply Forall_forall. intros r Hr.
        apply list_elem_of_lookup in Hr as [j Hj].
        apply lookup_take_Some in Hj as [Hj Hlt]. by eapply Hbefore. }
      rewrite <- (take_drop_middle _ _ _ Hi) in Hrun.
      destruct (reconcile_other_ids X _ s Hpre) as (sa & Hrun_pre & Hqa & Hpa).
      unfold reconcile in *. rewrite for_each_app, Hrun_pre in Hrun.
      cbn [for_each] in Hrun. unfold bind in Hrun.
      assert (_request_dict sa !! getID reply = Some request) as Hpend_a.
      { by rewrite Hid, Hqa. }
      rewrite (reconcile_reply_pending _ _ _ Hpend_a) in Hrun.
      set (sb := set_request_dict _ _) in Hrun.
      destruct (reconcile_not_pending X (drop (S i) replies) sb)
        as (s2 & Hrun_post & Hq2 & Hp2).
      { subst sb. cbn. rewrite Hid. apply lookup_delete_eq. }
      unfold reconcile in Hrun_post. rewrite Hrun_post in Hrun.
      injection Hrun as <-. split; [done|].
      rewrite Hp2. subst sb. cbn. rewrite Hid. apply lookup_insert_eq.
    + apply list_find_None in Hfind.
      destruct (reconcile_other_ids X replies s Hfind) as (s2 & Hrun2 & Hq & Hp).
      rewrite Hrun2 in Hrun. injection Hrun as <-. by rewrite Hq, Hp.
  - destruct (reconcile_not_pending X replies s Hpend) as (s2 & Hrun2 & Hq & Hp).
    rewrite Hrun2 in Hrun. injection Hrun as <-. by rewrite Hq, Hp.
Qed.

(** X15. Reconciliation loses no id and invents none: the ids pending
    afterwards were pending before, the ids resolved before are resolved
    afterwards, and the ids in either store are the same as before. *)
Theorem reconcile_tracks_ids replies : ∀ s,
  ∃ s', reconcile replies s = (Ok tt, s') ∧
        dom (_request_dict s') ⊆ dom (_request_dict s) ∧
        dom (_response_dict s) ⊆ dom (_response_dict s') ∧
        dom (_request_dict s') ∪ dom (_response_dict s')
          = dom (_request_dict s) ∪ dom (_response_dict s).
Proof.
  induction replies as [|r replies IH]; intros s.
  { exists s. done. }
  unfold reconcile. cbn [for_each]. unfold bind.
  destruct (reconcile_reply_cases s r) as [[-> _]|[-> Hpend]].
  - apply IH.
  - destruct (IH (set_request_dict (delete (getID r) (_request_dict s))
              (set_response_dict (<[getID r := r]> (_response_dict s)) s)))
      as (s' & Hrun & Hsub_q & Hsub_p & Hunion).
    cbn in Hsub_q, Hsub_p, Hunion.
    rewrite dom_delete_L in Hsub_q, Hunion.
    rewrite dom_insert_L in Hsub_p, Hunion.
    apply elem_of_dom in Hpend.
    exists s'. split; [exact Hrun|]. split; [|split].
    + etrans; [exact Hsub_q|]. by apply subseteq_difference_l.
    + etrans; [|exact Hsub_p]. apply union_subseteq_r.
    + rewrite Hunion. apply set_eq. intros k.
      rewrite !elem_of_union, elem_of_difference, elem_of_singleton.
      destruct (decide (k = getID r)) as [->|Hne]; tauto.
Qed.

(** X16. Retrieving the response of one id never raises, never touches
    the pending store, and leaves the responses of all other ids where
    they are: what a later retrieval of another id returns is not changed
    by it. *)
Theorem retrieval_leaves_other_ids s (X Y : Z) :
  X ≠ 0 → Y ≠ 0 → X ≠ Y →
  ∃ r s', getRequestResponse (Some X) s = (Ok r, s') ∧
          _request_dict s' = _request_dict s ∧
          _response_dict s' !! Y = _response_dict s !! Y ∧
          (getRequestResponse (Some Y) s').1 = (getRequestResponse (Some Y) s).1.
Proof.
  intros HX HY Hne.
  assert (∀ s1 s2, _response_dict s1 !! Y = _response_dict s2 !! Y →
            (getRequestResponse (Some Y) s1).1 = (getRequestResponse (Some Y) s2).1)
    as Hsame.
  { intros s1 s2 Heq. unfold getRequestResponse.
    rewrite rid_truthy_nonzero by done. unfold bind, get. cbn. rewrite Heq.
    by destruct (_response_dict s2 !! Y). }
  destruct (_response_dict s !! X) as [response|] eqn:Hr.
  - rewrite (getRequestResponse_matched _ _ _ HX Hr).
    eexists _, _. split; [reflexivity|]. split; [done|].
    assert (_response_dict
              (set_response_dict (delete X (_response_dict s)) s) !! Y
            = _response_dict s !! Y) as Heq.
    { cbn. by rewrite lookup_delete_ne. }
    split; [exact Heq|]. by apply Hsame.
  - rewrite (getRequestResponse_unmatched _ _ HX Hr).
    by eexists _, _.
Qed.

(** ** The poll tick *)

Local Arguments poll_link_io : simpl never.
Local Arguments poll_events : simpl never.
Local Arguments poll_replies : simpl never.

Lemma same_setup_refl s : same_setup s s.
Proof. by repeat split. Qed.

Lemma same_setup_trans s1 s2 s3 :
  same_setup s1 s2 → same_setup s2 s3 → same_setup s1 s3.
Proof.
  intros (Ha & Hb & Hc & Hd & He) (Ha' & Hb' & Hc' & Hd' & He').
  repeat split; congruence.
Qed.

Lemma with_mcu_setup {A : Type} (op : L → result A * L) s :
  same_setup s (with_mcu op s).2.
Proof.
  unfold with_mcu. destruct (_mcu s) as [l|] eqn:Hm.
  - destruct (op l) as [r l']. unfold same_setup, connected. cbn.
    by rewrite Hm.
  - apply same_setup_refl.
Qed.

Lemma poll_link_io_setup t s : same_setup s (poll_link_io t s).2.
Proof.
  unfold poll_link_io, bind, isConnected, get, ret. cbn.
  destruct (_mcu s) as [l|] eqn:Hm; [|apply same_setup_refl].
  pose proof (with_mcu_setup mcu_getSerialRx s) as H1'.
  destruct (with_mcu mcu_getSerialRx s) as [[[]|e] s1]; [|done]. cbn in H1'.
  match goal with |- context [fge ?a ?b] => destruct (fge a b) end; [|done].
  pose proof (with_mcu_setup mcu_runTimeSync s1) as H2'.
  destruct (with_mcu mcu_runTimeSync s1) as [[[]|e] s2]; cbn in *.
  - eapply same_setup_trans; [exact H1'|]. eapply same_setup_trans; [exact H2'|].
    by repeat split.
  - by eapply same_setup_trans.
Qed.

Lemma poll_events_setup t s : same_setup s (poll_events t s).2.
Proof.
  unfold poll_events, bind, get. cbn.
  pose proof (with_mcu_setup mcu_getRxEvents s) as H1'.
  destruct (with_mcu mcu_getRxEvents s) as [[evs|e] s1]; [|done]. cbn in H1'.
  eapply same_setup_trans; [exact H1'|].
  destruct (translate_events_emit t (fsub t (_last_callback_time s)) evs s1)
    as (k & es & _ & _ & -> & _).
  by repeat split.
Qed.

Lemma poll_replies_setup s : same_setup s (poll_replies s).2.
Proof.
  unfold poll_replies, bind.
  pose proof (with_mcu_setup (mcu_getRequestReplies true) s) as H1'.
  destruct (with_mcu (mcu_getRequestReplies true) s) as [[replies|e] s1];
    [|done]. cbn in H1'.
  eapply same_setup_trans; [exact H1'|].
  destruct (reconcile_frame replies s1) as (rq & rs & ->). by repeat split.
Qed.

(** X17. A poll tick, whatever it returns, leaves the configuration
    ([serial_port], [time_sync_interval], the monitored event types) and
    the reporting flag as they were and never changes whether the device
    is connected: no failure of the link makes the tick disconnect. *)
Theorem poll_keeps_setup t s : same_setup s (_poll t s).2.
Proof.
  unfold _poll, try_except, poll_body, bind.
  pose proof (poll_link_io_setup t s) as Hio.
  destruct (poll_link_io t s) as [[[]|e1] s1]; cbn in Hio.
  2:{ cbn. eapply same_setup_trans; [exact Hio|]. by repeat split. }
  unfold isReportingEvents, Device_isReportingEvents, bind, get, ret. cbn.
  destruct (_is_reporting_events s1); cbn; [|done].
  pose proof (poll_events_setup t s1) as Hev.
  destruct (poll_events t s1) as [[[]|e2] s2]; cbn in Hev.
  2:{ cbn. eapply same_setup_trans; [exact Hio|].
      eapply same_setup_trans; [exact Hev|]. by repeat split. }
  pose proof (poll_replies_setup s2) as Hrp.
  destruct (poll_replies s2) as [[[]|e3] s3]; cbn in Hrp; cbn;
    (eapply same_setup_trans; [exact Hio|]);
    (eapply same_setup_trans; [exact Hev|]);
    (eapply same_setup_trans; [exact Hrp|]); by repeat split.
Qed.

Lemma host_event_id (e : elist) eid t ci ev :
  (11 < length e)%nat → host_event e eid t ci ev !! 3%nat = Some (PyInt eid).
Proof.
  intros Hlen. unfold host_event. rewrite !list_lookup_insert_ne by lia.
  apply list_lookup_insert_eq. rewrite !length_insert. lia.
Qed.

(** The event ids the loop writes: the i-th record appended carries the
    counter value plus i. *)
Lemma translate_events_ids t ci evs : ∀ s,
  ∃ es : list elist,
    (for_each evs (translate_event t ci) s).2 =
      set_nativeEventBuffer (_nativeEventBuffer s ++ es)
        (set_iohub_event_id_counter
           (_iohub_event_id_counter s + Z.of_nat (length es)) s) ∧
    ∀ (i : nat) e, es !! i = Some e →
      e !! 3%nat = Some (PyInt (_iohub_event_id_counter s + Z.of_nat i)).
Proof.
  induction evs as [|ev evs IH]; intros s.
  { exists []. cbn. rewrite app_nil_r, Z.add_0_r. split; [by destruct s|done]. }
  destruct (new_elist ev) as [[e|]|err] eqn:Hn.
  - set (s1 := set_nativeEventBuffer
                 (_nativeEventBuffer s ++
                    [host_event e (_iohub_event_id_counter s) t ci ev])
                 (set_iohub_event_id_counter (_iohub_event_id_counter s + 1) s)).
    assert (for_each (ev :: evs) (translate_event t ci) s
            = for_each evs (translate_event t ci) s1) as ->.
    { cbn [for_each]. unfold bind. by rewrite (translate_event_emit _ _ _ _ _ Hn). }
    destruct (IH s1) as (es & Hst & Hids).
    exists (host_event e (_iohub_event_id_counter s) t ci ev :: es). split.
    + rewrite Hst. subst s1. cbn. rewrite <- app_assoc. cbn.
      by replace (_iohub_event_id_counter s + 1 + Z.of_nat (length es))
        with (_iohub_event_id_counter s + Z.pos (Pos.of_succ_nat (length es))) by lia.
    + intros [|i] e' Hi.
      * injection Hi as <-. rewrite Z.add_0_r. apply host_event_id.
        destruct (new_elist_length _ _ Hn) as [-> | ->]; lia.
      * cbn in Hi. rewrite (Hids i e' Hi). subst s1. cbn. do 2 f_equal. lia.
  - assert (for_each (ev :: evs) (translate_event t ci) s
            = for_each evs (translate_event t ci) s) as ->.
    { cbn [for_each]. unfold bind. by rewrite (translate_event_drop _ _ _ _ Hn). }
    apply IH.
  - assert (for_each (ev :: evs) (translate_event t ci) s = (Raise err, s)) as ->.
    { cbn [for_each]. unfold bind. by rewrite (translate_event_raise _ _ _ _ _ Hn). }
    exists []. cbn. rewrite app_nil_r, Z.add_0_r. split; [by destruct s|done].
Qed.

(** X18. In every tick the event buffer only grows at its end, the event
    id counter advances by exactly the number of records appended, and
    the records carry consecutive event ids starting at the counter: an
    event of an unknown type consumes no id. *)
Theorem poll_assigns_consecutive_ids t s :
  ∃ es : list elist,
    _nativeEventBuffer (_poll t s).2 = _nativeEventBuffer s ++ es ∧
    _iohub_event_id_counter (_poll t s).2
      = _iohub_event_id_counter s + Z.of_nat (length es) ∧
    ∀ (i : nat) e, es !! i = Some e →
      e !! 3%nat = Some (PyInt (_iohub_event_id_counter s + Z.of_nat i)).
Proof.
  assert (∃ es : list elist,
            _nativeEventBuffer s = _nativeEventBuffer s ++ es ∧
            _iohub_event_id_counter s
              = _iohub_event_id_counter s + Z.of_nat (length es) ∧
            ∀ (i : nat) e, es !! i = Some e →
              e !! 3%nat = Some (PyInt (_iohub_event_id_counter s + Z.of_nat i)))
    as Hnone.
  { exists []. cbn. by rewrite app_nil_r, Z.add_0_r. }
  destruct (poll_link_io_frame t s) as (m1 & ls & Hfr1).
  unfold _poll, try_except, poll_body, bind.
  destruct (poll_link_io t s) as [[[]|e1] s1]; cbn in Hfr1; subst s1.
  2:{ exact Hnone. }
  unfold isReportingEvents, Device_isReportingEvents, bind, get, ret. cbn.
  destruct (_is_reporting_events s); cbn; [|exact Hnone].
  set (s1 := set_last_sync_time ls (set_mcu m1 s)).
  assert (∃ es : list elist,
            _nativeEventBuffer (poll_events t s1).2 = _nativeEventBuffer s ++ es ∧
            _iohub_event_id_counter (poll_events t s1).2
              = _iohub_event_id_counter s + Z.of_nat (length es) ∧
            ∀ (i : nat) e, es !! i = Some e →
              e !! 3%nat = Some (PyInt (_iohub_event_id_counter s + Z.of_nat i)))
    as (es & Hbuf & Hcnt & Hids).
  { unfold poll_events, bind, get, with_mcu. cbn.
    destruct m1 as [l|]; cbn; [|exact Hnone].
    destruct (mcu_getRxEvents l) as [[evs|e] l1]; cbn; [|exact Hnone].
    destruct (translate_events_ids t (fsub t (_last_callback_time s)) evs
                (set_mcu (Some l1) s1)) as (es & -> & Hids).
    by exists es. }
  destruct (poll_events t s1) as [[[]|e2] s2]; cbn in Hbuf, Hcnt.
  2:{ by exists es. }
  destruct (poll_replies_frame s2) as (m3 & rq & rs & Hfr3).
  destruct (poll_replies s2) as [[[]|e3] s3]; cbn in Hfr3; subst s3; cbn;
    by exists es.
Qed.

Lemma poll_replies_raise_frame s e s' :
  poll_replies s = (Raise e, s') →
  _request_dict s' = _request_dict s ∧ _response_dict s' = _response_dict s.
Proof.
  unfold poll_replies, bind, with_mcu.
  destruct (_mcu s) as [l|].
  - destruct (mcu_getRequestReplies true l) as [[replies|e'] l1].
    + destruct (reconcile_frame replies (set_mcu (Some l1) s)) as (rq & rs & ->).
      done.
    + by intros [= _ <-].
  - by intros [= _ <-].
Qed.

(** X19. Only a tick that returns [True] changes the request tracker: when
    the tick returns [False] (reporting disabled) or [None] (an exception
    was caught), the pending and the resolved store are exactly what they
    were, so no reply is reconciled while reporting is disabled and none
    is half reconciled by a failing tick. *)
Theorem tracker_changes_only_in_complete_tick t s :
  (_poll t s).1 ≠ Ok (RetBool true) →
  _request_dict (_poll t s).2 = _request_dict s ∧
  _response_dict (_poll t s).2 = _response_dict s.
Proof.
  destruct (poll_link_io_frame t s) as (m1 & ls & Hfr1).
  unfold _poll, try_except, poll_body, bind.
  destruct (poll_link_io t s) as [[[]|e1] s1]; cbn in Hfr1; subst s1.
  2:{ done. }
  unfold isReportingEvents, Device_isReportingEvents, bind, get, ret. cbn.
  destruct (_is_reporting_events s); cbn; [|done].
  set (s1 := set_last_sync_time ls (set_mcu m1 s)).
  destruct (poll_events_frame t s1) as (m2 & es & c & Hfr2).
  destruct (poll_events t s1) as [[[]|e2] s2]; cbn in Hfr2; subst s2.
  2:{ done. }
  set (s2 := set_nativeEventBuffer _ _).
  destruct (poll_replies s2) as [[[]|e3] s3] eqn:Hrp; cbn; [done|].
  intros _. by destruct (poll_replies_raise_frame _ _ _ Hrp) as [-> ->].
Qed.

(** X20. When the link raises in the link phase of a tick, in the drain
    or in a due time sync, the tick prints the exception and returns
    [None] whether or not events are being reported; [_last_sync_time]
    is not advanced and nothing else of the tick runs. *)
Theorem link_phase_failure_fails_tick t s l e :
  _mcu s = Some l →
  (∃ l1, mcu_getSerialRx l = (Raise e, l1)) ∨
  (∃ l1 l2, mcu_getSerialRx l = (Ok tt, l1) ∧
            fge (fsub t (_last_sync_time s)) (time_sync_interval s) = true ∧
            mcu_runTimeSync l1 = (Raise e, l2)) →
  ∃ l', _poll t s
        = (Ok RetNone, set_stderr (stderr s ++ [e]) (set_mcu (Some l') s)).
Proof.
  intros Hm [(l1 & Hrx)|(l1 & l2 & Hrx & Hdue & Hsync)].
  - exists l1.
    unfold _poll, try_except, poll_body, poll_link_io, bind, isConnected, get, ret.
    cbn. rewrite Hm. by rewrite (with_mcu_Some _ _ _ _ _ Hm Hrx).
  - exists l2.
    unfold _poll, try_except, poll_body, poll_link_io, bind, isConnected, get, ret.
    cbn. rewrite Hm. rewrite (with_mcu_Some _ _ _ _ _ Hm Hrx). cbn.
    rewrite Hdue.
    rewrite (with_mcu_Some mcu_runTimeSync _ l1 (Raise e) l2) by done.
    unfold print2err, modify, bind. cbn. by destruct s.
Qed.

(** ** Events the loop does not turn into a record *)

(** X21. Events of a type the module does not know are dropped without a
    trace: a batch of such events appends no record, consumes no event id
    and raises nothing. *)
Theorem unknown_events_are_dropped t s l evs l' :
  _mcu s = Some l → mcu_getRxEvents l = (Ok evs, l') →
  Forall (λ ev, recognized ev = false) evs →
  poll_events t s = (Ok tt, set_mcu (Some l') s).
Proof.
  intros Hm Hev Hunk. rewrite (poll_events_run _ _ _ _ _ Hm Hev).
  generalize (set_mcu (Some l') s), (fsub t (_last_callback_time s)).
  clear Hm Hev. intros s1 ci.
  induction Hunk as [|ev evs Hrec _ IH]; [done|].
  cbn [for_each]. unfold bind.
  rewrite (translate_event_drop _ _ _ _ (new_elist_unknown _ Hrec)).
  exact IH.
Qed.

Lemma fill_channels_overflow (vs : list (pyval F)) : ∀ (j : nat) (e : elist),
  (j + 11 ≤ length e)%nat → (length e < j + 11 + length vs)%nat →
  fill_channels e (imap (λ i v, ((j + i)%nat, v)) vs) = Raise IndexError.
Proof.
  induction vs as [|v vs IH]; intros j e Hlo Hhi; [cbn in Hhi; lia|].
  cbn in Hhi. cbn [imap fill_channels]. rewrite Nat.add_0_r.
  destruct (decide (j + 11 < length e)%nat) as [Hlt|Hge].
  - rewrite setitem_Ok by done. cbn [bindR].
    rewrite (imap_ext _ (λ i v, ((S j + i)%nat, v)))
      by (intros; cbn; f_equal; lia).
    apply IH; rewrite length_insert; lia.
  - unfold setitem. by rewrite decide_False.
Qed.

(** X22. An analog or threshold event with more than eight values has no
    slot for the ninth: the assignment raises [IndexError] before a record
    is appended or an event id is taken, and the state is unchanged. *)
Theorem too_many_channels_raise t ci ev s :
  (∃ chs, event_data ev = AnalogInputEvent chs ∧ (8 < length chs)%nat) ∨
  (∃ flags, event_data ev = ThresholdEvent flags ∧ (8 < length flags)%nat) →
  translate_event t ci ev s = (Raise IndexError, s).
Proof.
  intros [(chs & Hd & Hlen)|(flags & Hd & Hlen)];
    apply translate_event_raise.
  - rewrite (new_elist_analog _ _ Hd). unfold enumerate.
    rewrite (fill_channels_overflow _ 0); [done| |].
    + rewrite length_insert, length_replicate. lia.
    + rewrite length_insert, length_replicate, length_fmap. lia.
  - rewrite (new_elist_threshold _ _ Hd). unfold enumerate.
    rewrite (fill_channels_overflow _ 0); [done| |].
    + rewrite length_insert, length_replicate. lia.
    + rewrite length_insert, length_replicate, length_fmap. lia.
Qed.

(** X23. An analog or threshold event with at most eight values becomes
    a record of nineteen slots: slot 4 holds the type tag of the variant,
    slot [11 + i] holds value [i] (the channel sample or the threshold
    flag), and the slots up to 18 that no value fills hold the
    "undefined" sentinel. *)
Theorem channel_event_record t ci ev (tag : pyval F) (vals : list (pyval F)) s :
  (∃ chs, event_data ev = AnalogInputEvent chs ∧
          tag = ANALOG_INPUT ∧ vals = PyFloat <$> chs) ∨
  (∃ flags, event_data ev = ThresholdEvent flags ∧
            tag = THRESHOLD ∧ vals = PyBool <$> flags) →
  (length vals ≤ 8)%nat →
  ∃ e : elist,
    translate_event t ci ev s =
      (Ok tt, set_nativeEventBuffer (_nativeEventBuffer s ++ [e])
                (set_iohub_event_id_counter (_iohub_event_id_counter s + 1) s)) ∧
    length e = 19%nat ∧
    e !! 4%nat = Some tag ∧
    (∀ (i : nat) v, vals !! i = Some v → e !! (11 + i)%nat = Some v) ∧
    (∀ i : nat, (length vals ≤ i < 8)%nat → e !! (11 + i)%nat = Some UNDEFINED).
Proof.
  intros Hvariant Hlen.
  set (e0 := <[4%nat := tag]> (replicate 19 UNDEFINED) : elist).
  assert (length e0 = 19%nat) as He0.
  { subst e0. by rewrite length_insert, length_replicate. }
  assert (new_elist ev = Ok (Some (list_inserts 11 vals e0))) as Hn.
  { assert (new_elist ev
            = bindR (fill_channels e0 (enumerate vals)) (λ e, Ok (Some e))) as ->.
    { destruct Hvariant as [(chs & Hd & -> & ->)|(flags & Hd & -> & ->)].
      - by rewrite (new_elist_analog _ _ Hd).
      - by rewrite (new_elist_threshold _ _ Hd). }
    unfold enumerate. by rewrite (fill_channels_enumerate _ 0 e0) by lia. }
  eexists. split; [by apply translate_event_emit|].
  split; [|split; [|split]].
  - by rewrite host_event_length, length_inserts.
  - unfold host_event. rewrite !list_lookup_insert_ne by lia.
    rewrite list_lookup_inserts_lt by lia. subst e0.
    apply list_lookup_insert_eq. rewrite length_replicate. lia.
  - intros i v Hi. rewrite host_event_payload by lia.
    pose proof (lookup_lt_Some _ _ _ Hi) as Hlt.
    rewrite list_lookup_inserts by lia.
    by replace (11 + i - 11)%nat with i by lia.
  - intros i Hi. rewrite host_event_payload by lia.
    rewrite list_lookup_inserts_ge by lia.
    subst e0. rewrite list_lookup_insert_ne by lia.
    apply lookup_replicate_2. lia.
Qed.

(** ** Switching event reporting *)

(** X24. Asking for the reporting state the device already has makes no
    link call and changes nothing. *)
Theorem enableEventReporting_same_state enabled now s :
  _is_reporting_events s = enabled →
  enableEventReporting enabled now s = (Ok enabled, s).
Proof.
  intros Hrep.
  unfold enableEventReporting, isReportingEvents, Device_isReportingEvents,
    Device_enableEventReporting, bind, get, modify, ret. cbn.
  rewrite Hrep. destruct enabled; cbn; destruct s; cbn in *; by subst.
Qed.

(** X25. Switching reporting on for a connected device asks the link for
    exactly the input streams named in the configured
    [monitor_event_types] and then sets the reporting flag. *)
Theorem enable_streams_follow_config now s l l' :
  _is_reporting_events s = false → _mcu s = Some l →
  mcu_enableInputEvents
    (bool_decide ("DigitalInputEvent"%string ∈ monitor_event_types s))
    (bool_decide ("AnalogInputEvent"%string ∈ monitor_event_types s))
    (bool_decide ("ThresholdEvent"%string ∈ monitor_event_types s)) l
    = (Ok tt, l') →
  enableEventReporting true now s
  = (Ok true, set_is_reporting_events true (set_mcu (Some l') s)).
Proof.
  intros Hrep Hm Hlink.
  unfold enableEventReporting, isReportingEvents, Device_isReportingEvents,
    Device_enableEventReporting, _enableInputEvents, isConnected, with_mcu,
    bind, get, modify, ret. cbn.
  rewrite Hrep. cbn. rewrite Hm. cbn. rewrite Hm, Hlink. done.
Qed.

(** X26. Switching reporting on for a disconnected device without a usable
    port: the connect attempt leaves the link handle at [None], the call
    on it raises [AttributeError], and the device is left as it was, not
    reporting. *)
Theorem enable_without_connection_raises now s :
  _is_reporting_events s = false → _mcu s = None →
  port_truthy (serial_port s) = None →
  enableEventReporting true now s = (Raise AttributeError, s).
Proof.
  intros Hrep Hm Hport.
  unfold enableEventReporting, isReportingEvents, Device_isReportingEvents,
    setConnectionState, _enableInputEvents, isConnected, with_mcu,
    bind, get, ret. cbn.
  by repeat (first [rewrite Hrep | rewrite Hm | rewrite Hport]; cbn).
Qed.

(** X27. Switching reporting off for a reporting device: when connected,
    the link is told to stop all three input streams and the flag is
    cleared; when the link raises, the flag stays set; when disconnected,
    no link call is made and the flag is cleared. *)
Theorem disable_reporting now s :
  _is_reporting_events s = true →
  (∀ l l', _mcu s = Some l →
           mcu_enableInputEvents false false false l = (Ok tt, l') →
           enableEventReporting false now s
           = (Ok false, set_is_reporting_events false (set_mcu (Some l') s))) ∧
  (∀ l e l', _mcu s = Some l →
             mcu_enableInputEvents false false false l = (Raise e, l') →
             enableEventReporting false now s = (Raise e, set_mcu (Some l') s)) ∧
  (_mcu s = None →
   enableEventReporting false now s = (Ok false, set_is_reporting_events false s)).
Proof.
  intros Hrep.
  unfold enableEventReporting, isReportingEvents, Device_isReportingEvents,
    Device_enableEventReporting, _enableInputEvents, isConnected, with_mcu,
    bind, get, modify, ret. cbn.
  rewrite Hrep. cbn. split; [|split].
  - intros l l' Hm Hlink. rewrite Hm. cbn. by rewrite Hm, Hlink.
  - intros l e l' Hm Hlink. rewrite Hm. cbn. by rewrite Hm, Hlink.
  - intros Hm. by rewrite Hm.
Qed.

(** ** Closing and constructing *)

(** X28. [_close] on a connected device whose link answers disconnects
    it, and a second [_close] then does nothing at all. *)
Theorem close_twice s l request l1 l2 request' l3 l4 now :
  _mcu s = Some l → mcu_resetState l = (Ok request, l1) →
  mcu_runTimeSync l1 = (Ok tt, l2) →
  mcu_resetState l2 = (Ok request', l3) → mcu_close l3 = (Ok tt, l4) →
  ∃ s', _close now s = (Ok tt, s') ∧ _mcu s' = None ∧
        _close now s' = (Ok tt, s').
Proof.
  intros Hm Hreset Hsync Hreset' Hclose.
  unfold _close at 1, bind, get. cbn. rewrite Hm.
  rewrite (resetState_run _ _ _ _ _ now Hm Hreset Hsync).
  unfold setConnectionState, bind, get, with_mcu. cbn.
  rewrite Hreset'. cbn. rewrite Hclose.
  unfold modify, isConnected, Device_close, bind, get, ret. cbn.
  eexists. split; [reflexivity|]. split; [done|].
  unfold _close, Device_close, bind, get, ret. by cbn.
Qed.

(** X29. The port the constructor settles on.  With the configured port
    ["auto"] in any letter case the candidate ports are looked up: with no
    candidate the device is left without port and disconnected, otherwise
    the first candidate becomes the port and is connected to.  With any
    other port name no lookup is made and that port is connected to. *)
Theorem init_selects_port now s port :
  serial_port s = Some port →
  let s0 := set_last_sync_time fzero
              (set_response_dict ∅ (set_request_dict ∅ (set_mcu None s))) in
  (lower port = "auto"%string → T3MC_findSyncs = Ok [] →
   __init__ now s = (Ok tt, set_serial_port None s0)) ∧
  (∀ port0 ports l0 l1,
     lower port = "auto"%string → T3MC_findSyncs = Ok (port0 :: ports) →
     port0 ≠ EmptyString →
     T3MC_new port0 = Ok l0 → mcu_runTimeSync l0 = (Ok tt, l1) →
     __init__ now s
     = (Ok tt, set_last_sync_time now
                 (set_mcu (Some l1) (set_serial_port (Some port0) s0)))) ∧
  (∀ l0 l1,
     lower port ≠ "auto"%string → port ≠ EmptyString →
     T3MC_new port = Ok l0 → mcu_runTimeSync l0 = (Ok tt, l1) →
     __init__ now s
     = (Ok tt, set_last_sync_time now (set_mcu (Some l1) s0))).
Proof.
  intros Hport s0. split; [|split].
  - intros Hauto Hfind.
    unfold __init__, bind, modify, get, liftR, ret. cbn. rewrite Hport. cbn.
    rewrite bool_decide_eq_true_2 by done. rewrite Hfind. cbn.
    unfold setConnectionState, isConnected, bind, get, ret. cbn. done.
  - intros port0 ports l0 l1 Hauto Hfind Hne Hnew Hsync.
    unfold __init__, bind, modify, get, liftR, ret. cbn. rewrite Hport. cbn.
    rewrite bool_decide_eq_true_2 by done. rewrite Hfind. cbn.
    unfold setConnectionState, bind, get. cbn.
    destruct port0 as [|c port0]; [done|]. cbn.
    unfold liftR, modify. cbn. rewrite Hnew. cbn.
    unfold _resetLocalState, with_mcu, bind, modify. cbn. rewrite Hsync.
    unfold isConnected, bind, get, ret. cbn. by destruct s.
  - intros l0 l1 Hauto Hne Hnew Hsync.
    unfold __init__, bind, modify, get, liftR, ret. cbn. rewrite Hport. cbn.
    rewrite bool_decide_eq_false_2 by done. cbn.
    unfold setConnectionState, bind, get. cbn.
    repeat (rewrite Hport; cbn).
    destruct port as [|c port]; [done|]. cbn.
    unfold liftR, modify. cbn. rewrite Hnew. cbn.
    unfold _resetLocalState, with_mcu, bind, modify. cbn. rewrite Hsync.
    unfold isConnected, bind, get, ret. cbn. by destruct s.
Qed.

End Behaviour.

(** * Runs of a concrete session *)

(** The tick catches an exception of the link: the queue link fails in
    [getRxEvents], the tick returns [None] and the error is printed. *)
Example poll_link_failure :
  _poll 20 (sample_session
              (Some (mkQueueLink [] [] 4 (Some (LinkError 5)) 0)) true)
  = (Ok RetNone,
     set_stderr [LinkError 5]
       (set_last_sync_time 20
          (sample_session
             (Some (mkQueueLink [] [] 4 (Some (LinkError 5)) 1)) true))).
Proof. reflexivity. Qed.

(** A ninth analog channel has no slot: the assignment raises and the
    tick fails. *)
Example poll_nine_channels :
  (_poll 20 (sample_session
               (Some (sample_link [analog_event 8 None [1;2;3;4;5;6;7;8;9]] [] 4))
               true)).1 = Ok RetNone.
Proof. reflexivity. Qed.

(** A device that is reporting and is then disconnected: the next tick
    fails on [None] and reports an [AttributeError]. *)
Example poll_after_disconnect :
  ∃ s1 s2 s3,
    enableEventReporting true 10 (idle_session 4) = (Ok true, s1) ∧
    setConnectionState false 10 s1 = (Ok false, s2) ∧
    _poll 20 s2 = (Ok RetNone, s3) ∧
    stderr s3 = [AttributeError].
Proof.
  eexists _, _, _. split; [run_session|]. split; [run_session|].
  split; [run_session|reflexivity].
Qed.

(** A bulk retrieval from a store that holds the response 3 returns the
    empty list, and the response is gone. *)
Example bulk_retrieval_loses_response :
  ∃ s',
    getRequestResponse None busy_session = (Ok (RetList []), s') ∧
    _response_dict busy_session !! 3 = Some (mkT3Request 3 [1]) ∧
    _response_dict s' !! 3 = None.
Proof.
  eexists. split; [run_session|]. split; reflexivity.
Qed.

(** Witness of C1. *)
Lemma reset_leaves_only_the_reset_request_witness :
  (∃ s', resetState 30 busy_session = (Ok (mkRequestDict 9 []), s') ∧
         _response_dict s' = ∅ ∧
         _request_dict s' = {[9 := mkT3Request 9 []]}) ∧
  (∃ s', _close 30 busy_session = (Ok tt, s') ∧
         _mcu s' = None ∧
         _response_dict s' = ∅ ∧
         _request_dict s' = {[9 := mkT3Request 9 []]}).
Proof.
  destruct (reset_leaves_only_the_reset_request busy_session
              (sample_link [] [] 9) (mkT3Request 9 [])
              (sample_link [] [] 10) (mkQueueLink [] [] 10 None 1) 30)
    as [Hreset Hclose]; [reflexivity..|].
  split; [exact Hreset|].
  apply (Hclose (mkT3Request 10 []) (mkQueueLink [] [] 11 None 1)
                (mkQueueLink [] [] 11 None 1)); reflexivity.
Defined.

(** C1, as stated, fails: a bare disconnect keeps the pending request 5
    and the resolved response 3, and after [resetState()] the pending
    store holds the reset request. *)
Lemma disconnect_and_reset_keep_entries :
  (∃ s', setConnectionState false 30 busy_session = (Ok false, s') ∧
         _request_dict s' !! 5 = Some (mkT3Request 5 []) ∧
         _response_dict s' !! 3 = Some (mkT3Request 3 [1])) ∧
  (∃ d s', resetState 30 busy_session = (Ok d, s') ∧
           _request_dict s' !! 9 = Some (mkT3Request 9 []) ∧
           _request_dict s' ≠ ∅).
Proof.
  split.
  - eexists. split; [reflexivity|]. split; reflexivity.
  - eexists _, _. split; [reflexivity|]. split; [reflexivity|].
    intros Hempty. apply (f_equal (λ m : gmap Z T3Request, m !! 9)) in Hempty.
    vm_compute in Hempty. discriminate.
Qed.

(** Witness of C3: the link numbers the request 4; the replies of the
    tick are one for another id, the reply to 4 and a duplicate of it. *)
Lemma request_reply_correlation_witness :
  ∃ s1 s2 s3,
    requestTime (idle_session 4) = (Ok (mkRequestDict 4 []), s1) ∧
    getRequestResponse (Some 4) s1 = (Ok RetNone, s1) ∧
    reconcile [mkT3Request 6 []; mkT3Request 4 [42]; mkT3Request 4 [43]] s1
      = (Ok tt, s2) ∧
    getRequestResponse (Some 4) s2 = (Ok (RetDict (mkRequestDict 4 [42])), s3) ∧
    getRequestResponse (Some 4) s3 = (Ok RetNone, s3).
Proof.
  destruct (request_reply_correlation (idle_session 4)
              (sample_link [digital_event 7 None 177] [] 4) (mkT3Request 4 [])
              (sample_link [digital_event 7 None 177] [] 5))
    as (s1 & Hsubmit & Hbefore & Hafter); [reflexivity|reflexivity|done|reflexivity|].
  destruct (Hafter [mkT3Request 6 []] (mkT3Request 4 [42]) [mkT3Request 4 [43]])
    as (s2 & s3 & Hrec & Hfirst & _ & Hsecond);
    [reflexivity|by repeat constructor|].
  exists s1, s2, s3. done.
Defined.

(** C3, as stated, fails for the id [0]: the reply with id 0 is resolved,
    but retrieving 0 takes the bulk path and returns a list, not the
    reply. *)
Lemma correlation_fails_for_id_zero :
  ∃ s1 s2 s3 r,
    requestTime (idle_session 0) = (Ok (mkRequestDict 0 []), s1) ∧
    reconcile [mkT3Request 0 [42]] s1 = (Ok tt, s2) ∧
    _response_dict s2 !! 0 = Some (mkT3Request 0 [42]) ∧
    getRequestResponse (Some 0) s2 = (Ok r, s3) ∧
    r = RetList [] ∧
    r ≠ RetDict (asdict (mkT3Request 0 [42])).
Proof.
  eexists _, _, _, _. split; [run_session|]. split; [run_session|].
  split; [run_session|]. split; [run_session|]. split; [reflexivity|done].
Qed.


(** Witness of C5. *)
Lemma poll_disconnected_reporting_fails_witness :
  _poll 20 (sample_session None true)
  = (Ok RetNone, set_stderr [AttributeError] (sample_session None true)).
Proof.
  pose proof (poll_disconnected_reporting_fails 20 (sample_session None true))
    as Hw.
  exact (Hw eq_refl eq_refl).
Defined.

(** Witness of C6: at time 20 the sync is due, at time 3 it is not. *)
Lemma poll_idle_tick_witness :
  _poll 20 (idle_session 4)
  = (Ok (RetBool false),
     set_last_sync_time 20
       (set_mcu (Some (mkQueueLink [digital_event 7 None 177] [] 4 None 1))
                (idle_session 4))) ∧
  _poll 3 (idle_session 4) = (Ok (RetBool false), idle_session 4).
Proof.
  pose proof (poll_idle_tick 20 (idle_session 4)
                (sample_link [digital_event 7 None 177] [] 4)) as Hdue.
  pose proof (poll_idle_tick 3 (idle_session 4)
                (sample_link [digital_event 7 None 177] [] 4)) as Hnot.
  split.
  - exact (proj2 (Hdue eq_refl eq_refl)).
  - exact (proj2 (Hnot eq_refl eq_refl)).
Defined.

(** C6, as stated, fails: the device is connected and not reporting and
    the sync is due, but the link raises in the time sync (or already in
    the drain); the tick returns [None], not a success value, and
    [_last_sync_time] stays at 0 instead of advancing to 20. *)
Lemma idle_tick_fails_when_link_raises :
  (connected (budget_session "COM3" (Some (mkBudgetLink 1)) false) = true ∧
   _is_reporting_events (budget_session "COM3" (Some (mkBudgetLink 1)) false)
     = false ∧
   fge (fsub 20 (_last_sync_time
                   (budget_session "COM3" (Some (mkBudgetLink 1)) false)))
       (time_sync_interval
          (budget_session "COM3" (Some (mkBudgetLink 1)) false)) = true ∧
   (_poll 20 (budget_session "COM3" (Some (mkBudgetLink 1)) false)).1
     = Ok RetNone ∧
   _last_sync_time
     (_poll 20 (budget_session "COM3" (Some (mkBudgetLink 1)) false)).2 = 0 ∧
   stderr (_poll 20 (budget_session "COM3" (Some (mkBudgetLink 1)) false)).2
     = [LinkError 1]) ∧
  ((_poll 20 (budget_session "COM3" (Some (mkBudgetLink 0)) false)).1
     = Ok RetNone ∧
   _last_sync_time
     (_poll 20 (budget_session "COM3" (Some (mkBudgetLink 0)) false)).2 = 0).
Proof. repeat split; reflexivity. Qed.

(** Witness of C7. *)
Lemma host_event_timing_witness :
  (∃ es : list (list (pyval Z)),
     _nativeEventBuffer (_poll 20 reporting_session).2 = [] ++ es ∧
     (∃ k : nat,
        Forall2 (timed_for 20 0)
                (List.filter recognized (take k sample_events)) es) ∧
     ((_poll 20 reporting_session).1 = Ok (RetBool true) →
      Forall2 (timed_for 20 0) (List.filter recognized sample_events) es)) ∧
  ((_poll 20 reporting_session).1 = Ok (RetBool true) →
   _last_callback_time (_poll 20 reporting_session).2 = 20) ∧
  ((_poll 20 reporting_session).1 ≠ Ok (RetBool true) →
   _last_callback_time (_poll 20 reporting_session).2 = 0).
Proof.
  pose proof (host_event_timing 20 reporting_session
                reporting_session_synced (mkQueueLink sample_events [] 4 None 1)
                sample_events (mkQueueLink [] [] 4 None 1)) as Hw.
  exact (Hw eq_refl eq_refl eq_refl eq_refl).
Defined.

(** C7, as stated, fails: the tick at time 10 is idle and returns
    [False]; reporting is then enabled, and the record of the tick at
    time 20 carries the confidence interval 20, not 20 - 10. *)
Lemma confidence_interval_spans_idle_tick :
  ∃ s1 s2 s3 e,
    _poll 10 (idle_session 4) = (Ok (RetBool false), s1) ∧
    enableEventReporting true 10 s1 = (Ok true, s2) ∧
    _poll 20 s2 = (Ok (RetBool true), s3) ∧
    _nativeEventBuffer s3 = [e] ∧
    e !! 8%nat = Some (PyFloat 20) ∧
    e !! 8%nat ≠ Some (PyFloat (20 - 10)).
Proof.
  eexists _, _, _, _. split; [run_session|]. split; [run_session|].
  split; [run_session|]. split; [run_session|]. split; [reflexivity|done].
Qed.

(** Witness of C8: the state byte 0b10110001. *)
Lemma digital_event_record_witness :
  translate_event 20 15 (digital_event 7 None 177) reporting_session
  = (Ok tt,
     set_nativeEventBuffer
       [[PyInt 0; PyInt 0; PyInt 0; PyInt 1; PyInt 121; PyFloat 7;
         PyFloat 20; PyFloat 20; PyFloat 15; PyFloat 0; PyInt 0; PyInt 177]]
       (set_iohub_event_id_counter 2 reporting_session)).
Proof.
  pose proof (digital_event_record 20 15 (digital_event 7 None 177) 177
                reporting_session) as Hw.
  exact (Hw eq_refl).
Defined.

(** C8, as stated, fails: the record of a digital event has twelve slots
    and that of an analog event nineteen, so the two do not have the same
    slots, and the slots 12 to 18 that the digital variant does not use
    do not exist in its record instead of holding the sentinel. *)
Lemma digital_record_has_twelve_slots :
  ∃ s' ed ea,
    _poll 20 reporting_session = (Ok (RetBool true), s') ∧
    _nativeEventBuffer s' = [ed; ea] ∧
    ed !! 11%nat = Some (PyInt 177) ∧
    length ed = 12%nat ∧ length ea = 19%nat ∧
    ed !! 12%nat = None ∧
    ed !! 12%nat ≠ Some UNDEFINED.
Proof.
  eexists _, _, _. split; [run_session|]. split; [run_session|].
  split; [reflexivity|]. split; [reflexivity|]. split; [reflexivity|].
  split; [reflexivity|done].
Qed.

(** Witness of C9: no request with id 7 is pending. *)
Lemma stale_reply_discarded_witness :
  reconcile_reply (mkT3Request 7 [42]) busy_session = (Ok tt, busy_session) ∧
  reconcile [mkT3Request 7 [42]] busy_session = (Ok tt, busy_session).
Proof.
  destruct (stale_reply_discarded busy_session (mkT3Request 7 [42]))
    as (Hstep & Hloop & _); [reflexivity|].
  by split.
Defined.

(** * Runs for the further behaviour *)

(** Witness of X1. *)
Lemma setConnectionState_reports_connection_witness :
  false = connected (set_mcu None busy_session).
Proof.
  pose proof (setConnectionState_reports_connection false 30 busy_session
                false (set_mcu None busy_session)) as Hw.
  exact (Hw eq_refl).
Defined.

(** Witness of X2. *)
Lemma setConnectionState_same_state_witness :
  setConnectionState true 30 busy_session = (Ok true, busy_session).
Proof.
  pose proof (setConnectionState_same_state true 30 busy_session) as Hw.
  exact (Hw eq_refl).
Defined.

(** Witness of X3: the port is the empty string. *)
Lemma connect_without_port_witness :
  setConnectionState true 30
    (set_serial_port (Some ""%string) (sample_session None false))
  = (Ok false, set_serial_port (Some ""%string) (sample_session None false)).
Proof.
  pose proof (connect_without_port 30
                (set_serial_port (Some ""%string) (sample_session None false)))
    as Hw.
  exact (Hw eq_refl eq_refl).
Defined.

(** Witness of X4. *)
Lemma connect_starts_fresh_witness :
  setConnectionState true 30
    (set_mcu None busy_session)
  = (Ok true,
     set_last_sync_time 30
       (set_response_dict ∅
          (set_request_dict ∅
             (set_mcu (Some (mkQueueLink [] [] 1 None 1))
                (set_mcu None busy_session))))).
Proof.
  pose proof (connect_starts_fresh (set_mcu None busy_session) "COM3"%string
                (mkQueueLink [] [] 1 None 0) (mkQueueLink [] [] 1 None 1) 30)
    as Hw.
  exact (Hw eq_refl eq_refl eq_refl eq_refl).
Defined.

(** Witness of X5: the port "COM9" cannot be opened. *)
Lemma connect_open_failure_witness :
  setConnectionState true 30 (budget_session "COM9" None false)
  = (Raise (LinkError 2), budget_session "COM9" None false).
Proof.
  pose proof (connect_open_failure (budget_session "COM9" None false)
                "COM9"%string (LinkError 2) 30) as Hw.
  exact (Hw eq_refl eq_refl eq_refl).
Defined.

(** Witness of X6: the port "COM3" opens and the first sync raises. *)
Lemma connect_sync_failure_witness :
  setConnectionState true 30 (budget_session "COM3" None false)
  = (Raise (LinkError 1),
     set_last_sync_time 0
       (set_response_dict ∅
          (set_request_dict ∅
             (set_mcu (Some (mkBudgetLink 0))
                (budget_session "COM3" None false))))).
Proof.
  pose proof (connect_sync_failure (budget_session "COM3" None false)
                "COM3"%string (mkBudgetLink 0) (mkBudgetLink 0)
                (LinkError 1) 30) as Hw.
  exact (Hw eq_refl eq_refl eq_refl eq_refl).
Defined.

(** Witness of X7. *)
Lemma disconnect_changes_only_link_witness :
  setConnectionState false 30 busy_session
  = (Ok false, set_mcu None busy_session).
Proof.
  pose proof (disconnect_changes_only_link busy_session
                (sample_link [] [] 9) (mkT3Request 9 [])
                (sample_link [] [] 10) (sample_link [] [] 10) 30) as Hw.
  exact (Hw eq_refl eq_refl eq_refl).
Defined.

(** Witness of X8: the link answers the reset and raises in the close. *)
Lemma failed_disconnect_stays_connected_witness :
  ∃ l', setConnectionState false 30
          (budget_session "COM3" (Some (mkBudgetLink 1)) false)
        = (Raise (LinkError 1),
           set_mcu (Some l')
             (budget_session "COM3" (Some (mkBudgetLink 1)) false)).
Proof.
  pose proof (failed_disconnect_stays_connected
                (budget_session "COM3" (Some (mkBudgetLink 1)) false)
                (mkBudgetLink 1) (LinkError 1) 30) as Hw.
  apply Hw; [reflexivity|].
  right. exists (mkT3Request 1 []), (mkBudgetLink 0), (mkBudgetLink 0).
  split; reflexivity.
Defined.

(** Witness of X9. *)
Lemma reconnect_clears_stores_witness :
  ∃ s1 s2,
    setConnectionState false 30 busy_session = (Ok false, s1) ∧
    _request_dict s1 = _request_dict busy_session ∧
    _response_dict s1 = _response_dict busy_session ∧
    setConnectionState true 30 s1 = (Ok true, s2) ∧
    _request_dict s2 = ∅ ∧ _response_dict s2 = ∅ ∧
    _mcu s2 = Some (mkQueueLink [] [] 1 None 1) ∧ _last_sync_time s2 = 30.
Proof.
  pose proof (reconnect_clears_stores busy_session
                (sample_link [] [] 9) (mkT3Request 9 [])
                (sample_link [] [] 10) (sample_link [] [] 10) "COM3"%string
                (mkQueueLink [] [] 1 None 0) (mkQueueLink [] [] 1 None 1) 30)
    as Hw.
  exact (Hw eq_refl eq_refl eq_refl eq_refl eq_refl eq_refl).
Defined.

(** Witness of X10: [getDigitalInputs] on the busy session. *)
Lemma wrapper_tracks_request_witness :
  ∃ s', getDigitalInputs busy_session = (Ok (mkRequestDict 9 []), s') ∧
        _request_dict s' !! 9 = Some (mkT3Request 9 []) ∧
        (∀ k, k ≠ 9 → _request_dict s' !! k = _request_dict busy_session !! k) ∧
        _response_dict s' = _response_dict busy_session.
Proof.
  pose proof (wrapper_tracks_request mcu_getDigitalInputs busy_session
                (sample_link [] [] 9) (mkT3Request 9 [])
                (sample_link [] [] 10)) as Hw.
  exact (Hw eq_refl eq_refl).
Defined.

(** Witness of X11. *)
Lemma command_on_disconnected_device_witness :
  getAnalogInputs (sample_session None true)
    = (Raise AttributeError, sample_session None true) ∧
  resetState 30 (sample_session None true)
    = (Raise AttributeError, sample_session None true).
Proof.
  pose proof (command_on_disconnected_device mcu_getAnalogInputs 30
                (sample_session None true)) as Hw.
  exact (Hw eq_refl).
Defined.

(** Witness of X12: a link that raises at once. *)
Lemma command_link_failure_witness :
  setDigitalOutputByte 255 (budget_session "COM3" (Some (mkBudgetLink 0)) false)
    = (Raise (LinkError 1),
       set_mcu (Some (mkBudgetLink 0))
         (budget_session "COM3" (Some (mkBudgetLink 0)) false)) ∧
  resetState 30 (budget_session "COM3" (Some (mkBudgetLink 0)) false)
    = (Raise (LinkError 1),
       set_mcu (Some (mkBudgetLink 0))
         (budget_session "COM3" (Some (mkBudgetLink 0)) false)).
Proof.
  pose proof (command_link_failure (mcu_setDigitalOutputByte 255) 30
                (budget_session "COM3" (Some (mkBudgetLink 0)) false)
                (mkBudgetLink 0) (LinkError 1) (mkBudgetLink 0)) as Hw.
  destruct (Hw eq_refl) as [Hsubmit Hreset].
  split; [exact (Hsubmit eq_refl)|exact (Hreset eq_refl)].
Defined.

(** Witness of X13: the link answers the reset and raises in the sync. *)
Lemma resetState_sync_failure_witness :
  resetState 30 (budget_session "COM3" (Some (mkBudgetLink 1)) false)
  = (Raise (LinkError 1),
     set_last_sync_time 0
       (set_mcu (Some (mkBudgetLink 0))
          (set_response_dict ∅
             (set_request_dict ∅
                (budget_session "COM3" (Some (mkBudgetLink 1)) false))))).
Proof.
  pose proof (resetState_sync_failure
                (budget_session "COM3" (Some (mkBudgetLink 1)) false)
                (mkBudgetLink 1) (mkT3Request 1 []) (mkBudgetLink 0)
                (LinkError 1) (mkBudgetLink 0) 30) as Hw.
  exact (Hw eq_refl eq_refl eq_refl).
Defined.

(** Witness of X16: retrieving 3 and then 5 on the busy session. *)
Lemma retrieval_leaves_other_ids_witness :
  ∃ r s', getRequestResponse (Some 3) busy_session = (Ok r, s') ∧
          _request_dict s' = _request_dict busy_session ∧
          _response_dict s' !! 5 = _response_dict busy_session !! 5 ∧
          (getRequestResponse (Some 5) s').1
            = (getRequestResponse (Some 5) busy_session).1.
Proof.
  pose proof (retrieval_leaves_other_ids busy_session 3 5) as Hw.
  apply Hw; done.
Defined.

(** Witness of X19: an idle tick. *)
Lemma tracker_changes_only_in_complete_tick_witness :
  _request_dict (_poll 20 (idle_session 4)).2 = _request_dict (idle_session 4) ∧
  _response_dict (_poll 20 (idle_session 4)).2 = _response_dict (idle_session 4).
Proof.
  pose proof (tracker_changes_only_in_complete_tick 20 (idle_session 4)) as Hw.
  apply Hw. vm_compute. discriminate.
Defined.

(** Witness of X20: the link answers the drain and raises in the sync. *)
Lemma link_phase_failure_fails_tick_witness :
  ∃ l', _poll 20 (budget_session "COM3" (Some (mkBudgetLink 1)) true)
        = (Ok RetNone,
           set_stderr [LinkError 1]
             (set_mcu (Some l')
                (budget_session "COM3" (Some (mkBudgetLink 1)) true))).
Proof.
  pose proof (link_phase_failure_fails_tick 20
                (budget_session "COM3" (Some (mkBudgetLink 1)) true)
                (mkBudgetLink 1) (LinkError 1)) as Hw.
  apply Hw; [reflexivity|].
  right. exists (mkBudgetLink 0), (mkBudgetLink 0).
  split; [reflexivity|]. split; reflexivity.
Defined.

(** Witness of X21: two events of unknown types. *)
Lemma unknown_events_are_dropped_witness :
  poll_events 20
    (sample_session
       (Some (sample_link [mkT3Event 8 None (UnknownEvent 99);
                           mkT3Event 9 None (UnknownEvent 7)] [] 4)) true)
  = (Ok tt,
     set_mcu (Some (sample_link [] [] 4))
       (sample_session
          (Some (sample_link [mkT3Event 8 None (UnknownEvent 99);
                              mkT3Event 9 None (UnknownEvent 7)] [] 4)) true)).
Proof.
  pose proof (unknown_events_are_dropped 20
                (sample_session
                   (Some (sample_link [mkT3Event 8 None (UnknownEvent 99);
                                       mkT3Event 9 None (UnknownEvent 7)] [] 4))
                   true)
                (sample_link [mkT3Event 8 None (UnknownEvent 99);
                              mkT3Event 9 None (UnknownEvent 7)] [] 4)
                [mkT3Event 8 None (UnknownEvent 99);
                 mkT3Event 9 None (UnknownEvent 7)]
                (sample_link [] [] 4)) as Hw.
  apply Hw; [reflexivity|reflexivity|]. by repeat constructor.
Defined.

(** Witness of X22: nine analog channels. *)
Lemma too_many_channels_raise_witness :
  translate_event 20 15 (analog_event 8 None [1;2;3;4;5;6;7;8;9])
    reporting_session
  = (Raise IndexError, reporting_session).
Proof.
  pose proof (too_many_channels_raise 20 15
                (analog_event 8 None [1;2;3;4;5;6;7;8;9]) reporting_session)
    as Hw.
  apply Hw. left. exists [1;2;3;4;5;6;7;8;9]. split; [reflexivity|cbn; lia].
Defined.

(** Witness of X23: three threshold flags. *)
Lemma channel_event_record_witness :
  ∃ e : list (pyval Z),
    translate_event 20 15 (mkT3Event 8 None (ThresholdEvent [true; false; true]))
      reporting_session
    = (Ok tt, set_nativeEventBuffer (_nativeEventBuffer reporting_session ++ [e])
                (set_iohub_event_id_counter
                   (_iohub_event_id_counter reporting_session + 1)
                   reporting_session)) ∧
    length e = 19%nat ∧
    e !! 4%nat = Some THRESHOLD ∧
    (∀ (i : nat) v, (PyBool <$> [true; false; true]) !! i = Some v →
                    e !! (11 + i)%nat = Some v) ∧
    (∀ i : nat, (length (PyBool (F:=Z) <$> [true; false; true]) ≤ i < 8)%nat →
                e !! (11 + i)%nat = Some UNDEFINED).
Proof.
  pose proof (channel_event_record 20 15
                (mkT3Event 8 None (ThresholdEvent [true; false; true]))
                THRESHOLD (PyBool <$> [true; false; true]) reporting_session)
    as Hw.
  apply Hw; [|cbn; lia].
  right. exists [true; false; true]. split; [reflexivity|]. split; reflexivity.
Defined.

(** Witness of X24. *)
Lemma enableEventReporting_same_state_witness :
  enableEventReporting true 30 reporting_session = (Ok true, reporting_session).
Proof.
  pose proof (enableEventReporting_same_state true 30 reporting_session) as Hw.
  exact (Hw eq_refl).
Defined.

(** Witness of X25. *)
Lemma enable_streams_follow_config_witness :
  enableEventReporting true 30 (idle_session 4)
  = (Ok true,
     set_is_reporting_events true
       (set_mcu (Some (sample_link [digital_event 7 None 177] [] 4))
          (idle_session 4))).
Proof.
  pose proof (enable_streams_follow_config 30 (idle_session 4)
                (sample_link [digital_event 7 None 177] [] 4)
                (sample_link [digital_event 7 None 177] [] 4)) as Hw.
  exact (Hw eq_refl eq_refl eq_refl).
Defined.

(** Witness of X26. *)
Lemma enable_without_connection_raises_witness :
  enableEventReporting true 30
    (set_serial_port None (sample_session None false))
  = (Raise AttributeError, set_serial_port None (sample_session None false)).
Proof.
  pose proof (enable_without_connection_raises 30
                (set_serial_port None (sample_session None false))) as Hw.
  exact (Hw eq_refl eq_refl eq_refl).
Defined.

(** Witness of X27. *)
Lemma disable_reporting_witness :
  enableEventReporting false 30 reporting_session
  = (Ok false,
     set_is_reporting_events false
       (set_mcu (Some (sample_link sample_events [] 4)) reporting_session)).
Proof.
  pose proof (disable_reporting 30 reporting_session) as Hw.
  destruct (Hw eq_refl) as (Hconnected & _ & _).
  exact (Hconnected (sample_link sample_events [] 4)
                    (sample_link sample_events [] 4) eq_refl eq_refl).
Defined.

(** Witness of X28. *)
Lemma close_twice_witness :
  ∃ s', _close 30 busy_session = (Ok tt, s') ∧ _mcu s' = None ∧
        _close 30 s' = (Ok tt, s').
Proof.
  pose proof (close_twice busy_session
                (sample_link [] [] 9) (mkT3Request 9 [])
                (sample_link [] [] 10) (mkQueueLink [] [] 10 None 1)
                (mkT3Request 10 []) (mkQueueLink [] [] 11 None 1)
                (mkQueueLink [] [] 11 None 1) 30) as Hw.
  exact (Hw eq_refl eq_refl eq_refl eq_refl eq_refl).
Defined.

(** Witness of X29: the configured port is "Auto" and the queue link finds
    the ports "COM7" and "COM9". *)
Lemma init_selects_port_witness :
  __init__ 30 (set_serial_port (Some "Auto"%string) busy_session)
  = (Ok tt,
     set_last_sync_time 30
       (set_mcu (Some (mkQueueLink [] [] 1 None 1))
          (set_serial_port (Some "COM7"%string)
             (set_last_sync_time 0
                (set_response_dict ∅
                   (set_request_dict ∅
                      (set_mcu None
                         (set_serial_port (Some "Auto"%string)
                            busy_session)))))))).
Proof.
  pose proof (init_selects_port 30
                (set_serial_port (Some "Auto"%string) busy_session)
                "Auto"%string eq_refl) as Hw.
  destruct Hw as (_ & Hfirst & _).
  apply (Hfirst "COM7"%string ["COM9"%string]
           (mkQueueLink [] [] 1 None 0) (mkQueueLink [] [] 1 None 1));
    [reflexivity|reflexivity|done|reflexivity|reflexivity].
Defined.
